(** * Valyu adapters of open-webui: content loader and web search

    A shallow embedding of
      backend/open_webui/retrieval/loaders/valyu.py  (class ValyuLoader)
      backend/open_webui/retrieval/web/valyu.py      (function search_valyu)
    together with the properties their specification states.

    Python values are an inductive type, attribute access and truthiness are
    functions over it, a raising computation returns [Raise e], logging is a
    list of records, and the generator [lazy_load] is the list of events it
    produces (requests, yielded documents, log records) with the way it ends.
    The two data types of the host, [Document] and [SearchResult], check the
    types of their fields when they are built, and so can raise. *)

From Stdlib Require Import List String Ascii ZArith Lia Bool Arith DecimalString.
Import ListNotations.
Open Scope string_scope.
Open Scope list_scope.
Set Warnings "-register-all".

(** ** Python values *)

Module Py.

(** The values the adapters can meet in a provider response.  A dict keeps its
    items in insertion order, as Python does (json.dumps prints them in that
    order), so it is an association list; [VObj] is a plain object, known by
    its attributes. *)
Inductive value : Type :=
| VNone
| VBool (b : bool)
| VInt (z : Z)
| VStr (s : string)
| VList (items : list value)
| VDict (items : list (string * value))
| VObj (attrs : list (string * value)).

Definition dict := list (string * value).

(** [bool(v)]. *)
Definition truthy (v : value) : bool :=
  match v with
  | VNone => false
  | VBool b => b
  | VInt z => negb (Z.eqb z 0)
  | VStr s => negb (String.eqb s "")
  | VList l => match l with [] => false | _ => true end
  | VDict d => match d with [] => false | _ => true end
  | VObj _ => true
  end.

(** [a or b]. *)
Definition py_or (a b : value) : value := if truthy a then a else b.

Definition isinstance_str (v : value) : bool :=
  match v with VStr _ => true | _ => false end.
Definition isinstance_dict (v : value) : bool :=
  match v with VDict _ => true | _ => false end.
Definition isinstance_list (v : value) : bool :=
  match v with VList _ => true | _ => false end.

(** [v == s] for a string literal [s]. *)
Definition eq_str (v : value) (s : string) : bool :=
  match v with VStr t => String.eqb t s | _ => false end.

(** Exceptions, all of them instances of Python's [Exception]. *)
Inductive exn : Type :=
| ValueError (msg : string)
| ImportError (msg : string)
| AttributeError (name : string)
| KeyError (key : string)
| TypeError (msg : string)
| ValyuApiError (error_msg : value)   (* Exception(f"Valyu API error: {error_msg}") *)
| ValidationError (model : string)    (* a host data type refusing a field *)
| ProviderError (what : string).      (* whatever else the SDK raises *)

(** [isinstance(e, ImportError)], what [except ImportError] catches. *)
Definition is_ImportError (e : exn) : bool :=
  match e with ImportError _ => true | _ => false end.

Inductive res (A : Type) : Type :=
| Return (a : A)
| Raise (e : exn).
Arguments Return {A} a.
Arguments Raise {A} e.

(** *** Dicts *)

Fixpoint dict_get (k : string) (d : dict) : option value :=
  match d with
  | [] => None
  | (k', v) :: rest => if String.eqb k k' then Some v else dict_get k rest
  end.

(** [d[k] = v]: an existing key keeps its place, a new one goes last. *)
Fixpoint dict_set (k : string) (v : value) (d : dict) : dict :=
  match d with
  | [] => [(k, v)]
  | (k', v') :: rest =>
      if String.eqb k k' then (k', v) :: rest else (k', v') :: dict_set k v rest
  end.

(** [d.update(other)]. *)
Definition dict_update (d other : dict) : dict :=
  fold_left (fun acc kv => dict_set (fst kv) (snd kv) acc) other d.

(** [d[k]]. *)
Definition dict_getitem (d : dict) (k : string) : res value :=
  match dict_get k d with
  | Some v => Return v
  | None => Raise (KeyError k)
  end.

(** [d.get(k, default)]. *)
Definition dict_get_default (d : dict) (k : string) (default : value) : value :=
  match dict_get k d with
  | Some v => v
  | None => default
  end.

(** *** Attributes *)

Definition attr_lookup (v : value) (name : string) : option value :=
  match v with
  | VObj attrs => dict_get name attrs
  | _ => None
  end.

(** [getattr(v, name, default)]. *)
Definition getattr (v : value) (name : string) (default : value) : value :=
  match attr_lookup v name with Some x => x | None => default end.

(** [v.name]. *)
Definition getattr_strict (v : value) (name : string) : res value :=
  match attr_lookup v name with
  | Some x => Return x
  | None => Raise (AttributeError name)
  end.

(** *** Iteration: [for x in v] *)

Fixpoint chars (s : string) : list value :=
  match s with
  | EmptyString => []
  | String c rest => VStr (String c EmptyString) :: chars rest
  end.

Definition py_iter (v : value) : res (list value) :=
  match v with
  | VList l => Return l
  | VStr s => Return (chars s)
  | VDict d => Return (map (fun kv => VStr (fst kv)) d)
  | _ => Raise (TypeError "object is not iterable")
  end.

End Py.
Import Py.

(** ** Logging *)

Inductive log_msg : Type :=
| MsgPackageNotFound
| MsgSearching (query : string)
| MsgSearchFailed (error_msg : value)
| MsgJsonFailed (e : exn)
| MsgFound (n : nat)
| MsgSearchError (e : exn)
| MsgBatchFailed (batch : list string) (error_msg : value)
| MsgNoContent (url : value)
| MsgNoResults (batch : list string)
| MsgBatchError (batch : list string) (e : exn).

Inductive log_record : Type :=
| LogInfo (m : log_msg)
| LogWarning (m : log_msg)
| LogError (m : log_msg).

(** ** Host data types *)

(** Modelled from the spec: [SearchResult] of open_webui.retrieval.web.main is
    not part of these two files.  The spec gives it the fields link, title
    and snippet, all strings; the host's class takes None as well for title
    and for snippet, and refuses anything else when it is built. *)
Record SearchResult : Type := mkSearchResult {
  link : string;
  title : option string;
  snippet : option string
}.

(** A value for an [Optional[str]] field. *)
Definition optional_str (v : value) : option (option string) :=
  match v with
  | VStr s => Some (Some s)
  | VNone => Some None
  | _ => None
  end.

(** [SearchResult(link=..., title=..., snippet=...)]. *)
Definition new_SearchResult (link title snippet : value) : res SearchResult :=
  match link, optional_str title, optional_str snippet with
  | VStr l, Some t, Some s => Return (mkSearchResult l t s)
  | _, _, _ => Raise (ValidationError "SearchResult")
  end.

(** Modelled from the spec: [Document] of langchain_core is not part of
    these two files.  The spec gives it a content that is a string and a
    metadata mapping; it refuses a content that is not a string when it is
    built. *)
Record Document : Type := mkDocument {
  page_content : string;
  metadata : dict
}.

(** [Document(page_content=..., metadata=...)]. *)
Definition new_Document (page_content : value) (metadata : dict) : res Document :=
  match page_content with
  | VStr s => Return (mkDocument s metadata)
  | _ => Raise (ValidationError "Document")
  end.

Inductive response_length : Type := Short | Medium | Large | Max.
Inductive extract_effort : Type := Auto | Normal | High.

(** ** Computations that log and may raise *)

Definition M (A : Type) : Type := list log_record * res A.

Definition ret {A} (a : A) : M A := ([], Return a).
Definition raise {A} (e : exn) : M A := ([], Raise e).
Definition lift {A} (r : res A) : M A := ([], r).
Definition log (r : log_record) : M unit := ([r], Return tt).

Definition bind {A B} (c : M A) (k : A -> M B) : M B :=
  match c with
  | (l, Return a) => let (l', r) := k a in (l ++ l', r)
  | (l, Raise e) => (l, Raise e)
  end.

(** [try: c except Exception as e: h e]. *)
Definition try_except {A} (c : M A) (h : exn -> M A) : M A :=
  match c with
  | (l, Return a) => (l, Return a)
  | (l, Raise e) => let (l', r) := h e in (l ++ l', r)
  end.

Notation "x <- c ;; k" := (bind c (fun x => k))
  (at level 61, c at next level, right associativity).
Notation "c ;;; k" := (bind c (fun _ => k))
  (at level 61, right associativity).

(** [for x in xs: f x], collecting what each round appends. *)
Fixpoint for_each {A B} (f : A -> M (list B)) (xs : list A) : M (list B) :=
  match xs with
  | [] => ret []
  | x :: rest =>
      ys <- f x ;;
      zs <- for_each f rest ;;
      ret (ys ++ zs)
  end.

(** ** retrieval/web/valyu.py *)

Section Search.

(** The valyu SDK: what [from valyu import Valyu] does (it returns, or
    raises ImportError when the package is missing, or raises something else
    when the package is there but fails to load), the client constructor and
    its search call. *)
Variable client : Type.
Variable import_valyu : res unit.
Variable Valyu : string -> res client.
Variable client_search : client -> string -> Z -> res value.

(** [json.dumps(v, indent=2)] and [str(v)]. *)
Variable json_dumps : value -> res string.
Variable str : value -> string.

(** [get_filtered_results] of open_webui.retrieval.web.main. *)
Variable get_filtered_results : list dict -> list string -> res (list dict).

(** [count or 10]. *)
Definition count_or_10 (count : Z) : Z :=
  if Z.eqb count 0 then 10%Z else count.

(** Lines 67-77: structured content becomes text. *)
Definition convert_content (data_type content : value) : M value :=
  if eq_str data_type "structured" && truthy content then
    if isinstance_dict content || isinstance_list content then
      try_except
        (s <- lift (json_dumps content) ;; ret (VStr s))
        (fun e => log (LogWarning (MsgJsonFailed e)) ;;; ret (VStr (str content)))
    else if negb (isinstance_str content) then ret (VStr (str content))
    else ret content
  else ret content.

(** Lines 57-87: one round of the loop over [response.results]. *)
Definition extract_result (result : value) : M (list dict) :=
  let url := getattr result "url" (VStr "") in
  let title := getattr result "title" (VStr "") in
  let content :=
    py_or (py_or (getattr result "content" (VStr ""))
                 (getattr result "text" (VStr "")))
          (getattr result "snippet" (VStr "")) in
  let data_type := getattr result "data_type" (VStr "unstructured") in
  content <- convert_content data_type content ;;
  if truthy url then
    ret [[("url", url); ("title", title); ("content", content);
          ("data_type", data_type)]]
  else ret [].

(** Lines 54-87. *)
Definition extract_results (response : value) : M (list dict) :=
  match attr_lookup response "results" with
  | Some results =>
      if truthy results then
        items <- lift (py_iter results) ;;
        for_each extract_result items
      else ret []
  | None => ret []
  end.

(** [bool(filter_list)] for an [Optional[list[str]]]. *)
Definition filter_given (filter_list : option (list string)) : option (list string) :=
  match filter_list with
  | Some (d :: ds) => Some (d :: ds)
  | _ => None
  end.

(** Lines 90-91. *)
Definition apply_filter (filter_list : option (list string)) (results : list dict)
  : M (list dict) :=
  match filter_given filter_list, results with
  | Some fl, _ :: _ => lift (get_filtered_results results fl)
  | _, _ => ret results
  end.

(** Lines 96-100. *)
Definition to_search_result (result : dict) : res SearchResult :=
  match dict_getitem result "url" with
  | Raise e => Raise e
  | Return url =>
      new_SearchResult url
        (dict_get_default result "title" (VStr ""))
        (dict_get_default result "content" (VStr ""))
  end.

Fixpoint to_search_results (results : list dict) : res (list SearchResult) :=
  match results with
  | [] => Return []
  | r :: rest =>
      match to_search_result r with
      | Raise e => Raise e
      | Return x =>
          match to_search_results rest with
          | Raise e => Raise e
          | Return xs => Return (x :: xs)
          end
      end
  end.

(** Lines 38-102: the body of the second [try]. *)
Definition search_body (api_key query : string) (count : Z)
    (filter_list : option (list string)) : M (list SearchResult) :=
  c <- lift (Valyu api_key) ;;
  response <- lift (client_search c query (count_or_10 count)) ;;
  success <- lift (getattr_strict response "success") ;;
  if negb (truthy success) then
    log (LogError (MsgSearchFailed (getattr response "error" (VStr "Unknown error")))) ;;;
    ret []
  else
    results <- extract_results response ;;
    results <- apply_filter filter_list results ;;
    log (LogInfo (MsgFound (List.length results))) ;;;
    lift (to_search_results results).

Definition search_valyu (api_key query : string) (count : Z)
    (filter_list : option (list string)) : M (list SearchResult) :=
  match import_valyu with
  | Raise e =>
      if is_ImportError e then log (LogError MsgPackageNotFound) ;;; ret []
      else raise e
  | Return _ =>
      log (LogInfo (MsgSearching query)) ;;;
      try_except
        (search_body api_key query count filter_list)
        (fun e => log (LogError (MsgSearchError e)) ;;; ret [])
  end.

(** The content value of a raw result: the first truthy one of its content,
    text and snippet, or else the last of them. *)
Definition content_value (result : value) : value :=
  py_or (py_or (getattr result "content" (VStr ""))
               (getattr result "text" (VStr "")))
        (getattr result "snippet" (VStr "")).

(** The value [convert_content] leaves in [content]. *)
Definition converted (data_type content : value) : value :=
  if eq_str data_type "structured" && truthy content then
    if isinstance_dict content || isinstance_list content then
      match json_dumps content with
      | Return s => VStr s
      | Raise _ => VStr (str content)
      end
    else if negb (isinstance_str content) then VStr (str content)
    else content
  else content.

(** What the search would build a [SearchResult] from, for a raw result. *)
Definition result_fields (result : value) : value * value * value :=
  (getattr result "url" (VStr ""),
   getattr result "title" (VStr ""),
   converted (getattr result "data_type" (VStr "unstructured"))
             (content_value result)).

(** A raw result the search can return or drop: it has no url, or its url,
    title and converted content are what [SearchResult] takes. *)
Definition valid_result (result : value) : bool :=
  let '(url, title, snippet) := result_fields result in
  negb (truthy url) ||
  match new_SearchResult url title snippet with
  | Return _ => true
  | Raise _ => false
  end.

(** The search result a raw result ends as, when nothing filters it out. *)
Definition normalized (result : value) : list SearchResult :=
  let '(url, title, snippet) := result_fields result in
  if truthy url then
    match new_SearchResult url title snippet with
    | Return x => [x]
    | Raise _ => []
    end
  else [].

End Search.

(** The search result an entry of the result list stands for, if it has a
    url and its fields are what [SearchResult] takes. *)
Definition entry_result (d : dict) : option SearchResult :=
  match dict_get "url" d with
  | Some url =>
      match new_SearchResult url (dict_get_default d "title" (VStr ""))
                             (dict_get_default d "content" (VStr "")) with
      | Return x => Some x
      | Raise _ => None
      end
  | None => None
  end.

(** ** retrieval/loaders/valyu.py *)

(** [urls: Union[str, List[str]]]. *)
Inductive urls_arg : Type :=
| UrlStr (u : string)
| UrlList (us : list string).

(** [bool(urls)]. *)
Definition urls_truthy (urls : urls_arg) : bool :=
  match urls with
  | UrlStr u => negb (String.eqb u "")
  | UrlList us => match us with [] => false | _ => true end
  end.

(** [urls if isinstance(urls, list) else [urls]]. *)
Definition urls_as_list (urls : urls_arg) : list string :=
  match urls with
  | UrlStr u => [u]
  | UrlList us => us
  end.

(** [range(0, stop, step)] for a positive step. *)
Definition py_range (stop step : nat) : list nat :=
  map (fun k => k * step) (seq 0 ((stop + step - 1) / step)).

(** [l[i:j]]. *)
Definition slice {A} (l : list A) (i j : nat) : list A :=
  firstn (j - i) (skipn i l).

Definition batch_size : nat := 10.

(** Lines 66-67: the batches the loop goes through. *)
Definition batches (urls : list string) : list (list string) :=
  map (fun i => slice urls i (i + batch_size))
      (py_range (List.length urls) batch_size).

(** What the generator does, in order. *)
Inductive event : Type :=
| Request (batch : list string) (rl : response_length) (ee : extract_effort)
| Yield (doc : Document)
| Logged (r : log_record).

(** How the iteration ends. *)
Inductive ending : Type :=
| StopIteration
| Raised (e : exn).

Definition yielded (t : list event) : list Document :=
  flat_map (fun ev => match ev with Yield d => [d] | _ => [] end) t.

Definition requested (t : list event) : list (list string) :=
  flat_map (fun ev => match ev with Request b _ _ => [b] | _ => [] end) t.

(** The parts of a finished run. *)
Definition events_of {C : Type} (run : list event * ending * C) : list event :=
  fst (fst run).
Definition ending_of {C : Type} (run : list event * ending * C) : ending :=
  snd (fst run).

(** Lines 89-108: one round of the loop over [response.results]; it ends
    with [Raise e] when [Document] refuses the content. *)
Definition load_result (result : value) : list event * res unit :=
  let url := getattr result "url" (VStr "") in
  let content := getattr result "content" (VStr "") in
  if negb (truthy content) then
    ([Logged (LogWarning (MsgNoContent url))], Return tt)
  else
    let metadata := [("source", url)] in
    let metadata :=
      match attr_lookup result "metadata" with
      | Some result_metadata =>
          if truthy result_metadata then
            match result_metadata with
            | VDict d => dict_update metadata d
            | _ => metadata
            end
          else metadata
      | None => metadata
      end in
    match new_Document content metadata with
    | Return doc => ([Yield doc], Return tt)
    | Raise e => ([], Raise e)
    end.

(** Lines 88-108: the loop over [response.results], left at the first
    exception. *)
Fixpoint load_results (items : list value) : list event * res unit :=
  match items with
  | [] => ([], Return tt)
  | result :: rest =>
      match load_result result with
      | (t, Return _) => let (t', out) := load_results rest in (t ++ t', out)
      | (t, Raise e) => (t, Raise e)
      end
  end.

(** What a result gives on its own. *)
Definition result_events (result : value) : list event := fst (load_result result).

(** A result the loader can go past: its content is falsy or a string. *)
Definition content_ok (result : value) : bool :=
  negb (truthy (getattr result "content" (VStr ""))) ||
  isinstance_str (getattr result "content" (VStr "")).

Section Loader.

Variable client : Type.
Variable import_valyu : res unit.
Variable Valyu : string -> res client.
(** [client.contents(urls=..., response_length=..., extract_effort=...)]:
    what it returns or raises, and the client afterwards. *)
Variable contents :
  client -> list string -> response_length -> extract_effort -> res value * client.

Record ValyuLoader : Type := mkValyuLoader {
  api_key : string;
  urls : list string;
  self_response_length : response_length;
  self_extract_effort : extract_effort;
  continue_on_failure : bool;
  self_client : client
}.

(** [ValyuLoader.__init__]. *)
Definition init (urls : urls_arg) (api_key : string) (rl : response_length)
    (ee : extract_effort) (continue_on_failure : bool) : res ValyuLoader :=
  if negb (urls_truthy urls) then
    Raise (ValueError "At least one URL must be provided.")
  else
    match import_valyu with
    | Raise e =>
        if is_ImportError e then
          Raise (ImportError
                   "valyu package not found. Please install it with: pip install valyu")
        else Raise e
    | Return _ =>
        match Valyu api_key with
        | Raise e => Raise e
        | Return c =>
            Return (mkValyuLoader api_key (urls_as_list urls) rl ee
                                  continue_on_failure c)
        end
    end.

(** The defaults of the keyword arguments. *)
Definition init_default (urls : urls_arg) (api_key : string) : res ValyuLoader :=
  init urls api_key Max Auto true.

Variable self : ValyuLoader.

(** Lines 77-110: the body of the [try] once the call has returned or
    raised; [Return tt] stands for falling through to the next round,
    [Raise e] for an exception on its way to the [except] clause. *)
Definition try_batch (batch_urls : list string) (r : res value)
  : list event * res unit :=
  match r with
  | Raise e => ([], Raise e)
  | Return response =>
      match getattr_strict response "success" with
      | Raise e => ([], Raise e)
      | Return success =>
          if negb (truthy success) then
            let error_msg := getattr response "error" (VStr "Unknown error") in
            ([Logged (LogError (MsgBatchFailed batch_urls error_msg))],
             if negb (continue_on_failure self)
             then Raise (ValyuApiError error_msg)
             else Return tt)
          else
            match attr_lookup response "results" with
            | Some results =>
                if truthy results then
                  match py_iter results with
                  | Raise e => ([], Raise e)
                  | Return items => load_results items
                  end
                else ([Logged (LogWarning (MsgNoResults batch_urls))], Return tt)
            | None => ([Logged (LogWarning (MsgNoResults batch_urls))], Return tt)
            end
      end
  end.

(** Lines 68-116: one round of the loop over the batches, with its
    [except Exception] clause. *)
Definition load_batch (c : client) (batch_urls : list string)
  : list event * res unit * client :=
  let (r, c') :=
    contents c batch_urls (self_response_length self) (self_extract_effort self) in
  let (t, out) := try_batch batch_urls r in
  let t := Request batch_urls (self_response_length self) (self_extract_effort self) :: t in
  match out with
  | Return tt => (t, Return tt, c')
  | Raise e =>
      if continue_on_failure self then
        (t ++ [Logged (LogError (MsgBatchError batch_urls e))], Return tt, c')
      else (t, Raise e, c')
  end.

Fixpoint load_batches (c : client) (bs : list (list string))
  : list event * ending * client :=
  match bs with
  | [] => ([], StopIteration, c)
  | b :: rest =>
      match load_batch c b with
      | (t, Return tt, c') =>
          match load_batches c' rest with
          | (t', e, c'') => (t ++ t', e, c'')
          end
      | (t, Raise e, c') => (t, Raised e, c')
      end
  end.

(** [ValyuLoader.lazy_load], run until it stops. *)
Definition lazy_load : list event * ending * client :=
  load_batches (self_client self) (batches (urls self)).

End Loader.

Arguments mkValyuLoader {client}.
Arguments api_key {client}.
Arguments urls {client}.
Arguments self_response_length {client}.
Arguments self_extract_effort {client}.
Arguments continue_on_failure {client}.
Arguments self_client {client}.
Arguments init {client}.
Arguments init_default {client}.
Arguments try_batch {client}.
Arguments load_batch {client}.
Arguments load_batches {client}.
Arguments lazy_load {client}.
Arguments search_body {client}.
Arguments search_valyu {client}.

(** ** A concrete SDK and standard library, to run the adapters on *)

Module Json.

Local Open Scope string_scope.

Definition quote : string := String "034" EmptyString.
Definition backslash : string := String "092" EmptyString.
Definition newline : string := String "010" EmptyString.

Definition hex_digit (n : nat) : string :=
  String (nth n (list_ascii_of_string "0123456789abcdef") "0"%char) EmptyString.

(** One character of a string literal, as json.dumps writes it with
    ensure_ascii: the printable ASCII characters stand for themselves but
    for the quote and the backslash, the others are escaped. *)
Definition escape_char (c : ascii) : string :=
  let n := nat_of_ascii c in
  if Nat.eqb n 34 then backslash ++ quote
  else if Nat.eqb n 92 then backslash ++ backslash
  else if Nat.eqb n 10 then backslash ++ "n"
  else if Nat.eqb n 13 then backslash ++ "r"
  else if Nat.eqb n 9 then backslash ++ "t"
  else if Nat.eqb n 8 then backslash ++ "b"
  else if Nat.eqb n 12 then backslash ++ "f"
  else if Nat.leb 32 n && Nat.leb n 126 then String c EmptyString
  else backslash ++ "u00" ++ hex_digit (n / 16) ++ hex_digit (n mod 16).

Fixpoint escape (s : string) : string :=
  match s with
  | EmptyString => EmptyString
  | String c rest => escape_char c ++ escape rest
  end.

Definition encode_str (s : string) : string := quote ++ escape s ++ quote.

Definition encode_int (z : Z) : string := NilZero.string_of_int (Z.to_int z).

Fixpoint spaces (n : nat) : string :=
  match n with
  | O => EmptyString
  | S m => String " " (spaces m)
  end.

(** The line break before an item at nesting depth [level], indent 2. *)
Definition newline_indent (level : nat) : string := newline ++ spaces (2 * level).

Fixpoint join (sep : string) (parts : list string) : string :=
  match parts with
  | [] => EmptyString
  | [p] => p
  | p :: rest => p ++ sep ++ join sep rest
  end.

(** [json.dumps(v, indent=2)] on the values of [Py.value], strings taken as
    sequences of code points below 256.  A plain object is not
    serializable. *)
Fixpoint encode (level : nat) (v : value) {struct v} : res string :=
  match v with
  | VNone => Return "null"
  | VBool true => Return "true"
  | VBool false => Return "false"
  | VInt z => Return (encode_int z)
  | VStr s => Return (encode_str s)
  | VList [] => Return "[]"
  | VList items =>
      match
        (fix each (l : list value) : res (list string) :=
           match l with
           | [] => Return []
           | x :: rest =>
               match encode (S level) x with
               | Raise e => Raise e
               | Return p =>
                   match each rest with
                   | Raise e => Raise e
                   | Return ps => Return (p :: ps)
                   end
               end
           end) items
      with
      | Raise e => Raise e
      | Return parts =>
          Return ("[" ++ newline_indent (S level)
                      ++ join ("," ++ newline_indent (S level)) parts
                      ++ newline_indent level ++ "]")
      end
  | VDict [] => Return "{}"
  | VDict items =>
      match
        (fix each (l : list (string * value)) : res (list string) :=
           match l with
           | [] => Return []
           | (k, x) :: rest =>
               match encode (S level) x with
               | Raise e => Raise e
               | Return p =>
                   match each rest with
                   | Raise e => Raise e
                   | Return ps => Return ((encode_str k ++ ": " ++ p) :: ps)
                   end
               end
           end) items
      with
      | Raise e => Raise e
      | Return parts =>
          Return ("{" ++ newline_indent (S level)
                      ++ join ("," ++ newline_indent (S level)) parts
                      ++ newline_indent level ++ "}")
      end
  | VObj _ => Raise (TypeError "Object is not JSON serializable")
  end.

Definition dumps (v : value) : res string := encode 0 v.

End Json.

Module Sample.

(** A client that answers its successive calls from a script. *)
Definition client : Type := list (res value).

Definition Valyu (answers : list (res value)) (api_key : string) : res client :=
  Return answers.

Definition contents (c : client) (batch : list string)
    (rl : response_length) (ee : extract_effort) : res value * client :=
  match c with
  | [] => (Raise (ProviderError "no answer left"), [])
  | r :: rest => (r, rest)
  end.

Definition client_search (c : client) (query : string) (max_num_results : Z)
  : res value :=
  match c with
  | [] => Raise (ProviderError "no answer left")
  | r :: _ => r
  end.

(** A client whose constructor raises. *)
Definition Valyu_raising (api_key : string) : res client :=
  Raise (ProviderError "invalid API key").

(** A stand-in for [str]: exact on None, booleans, integers and strings. *)
Definition str (v : value) : string :=
  match v with
  | VNone => "None"
  | VBool true => "True"
  | VBool false => "False"
  | VInt z => Json.encode_int z
  | VStr s => s
  | VList _ => "[...]"
  | VDict _ => "{...}"
  | VObj _ => "<object>"
  end.

Definition contains (sub s : string) : bool :=
  match index 0 sub s with Some _ => true | None => false end.

(** A stand-in for the host's domain filter: a result stays when its url
    mentions one of the domains. *)
Definition get_filtered_results (results : list dict) (filter_list : list string)
  : res (list dict) :=
  Return (filter (fun r =>
                    match dict_get "url" r with
                    | Some (VStr u) => existsb (fun d => contains d u) filter_list
                    | _ => false
                    end) results).

Definition ok_response (results : list value) : value :=
  VObj [("success", VBool true); ("results", VList results)].

Definition failed_response (error : string) : value :=
  VObj [("success", VBool false); ("error", VStr error); ("results", VList [])].

Definition urls25 : list string :=
  map (fun k => "https://example.org/" ++ Json.encode_int (Z.of_nat k))%string (seq 1 25).

End Sample.

(** ** Sample loaders *)

Definition three_answers (middle : value) : list (res value) :=
  [Return (Sample.ok_response [VObj [("url", VStr "https://example.org/1");
                                     ("content", VStr "first")]]);
   Return middle;
   Return (Sample.ok_response [VObj [("url", VStr "https://example.org/21");
                                     ("content", VStr "last")]])].

Definition sample_loader (continue_on_failure : bool) (middle : value)
  : ValyuLoader Sample.client :=
  mkValyuLoader "key" Sample.urls25 Max Auto continue_on_failure
                (three_answers middle).

Definition result_with_own_source : value :=
  VObj [("url", VStr "https://example.org/a");
        ("content", VStr "x");
        ("metadata", VDict [("lang", VStr "en");
                            ("source", VStr "https://elsewhere.example/")])].

Definition plain_result : value :=
  VObj [("url", VStr "https://example.org/a"); ("content", VStr "x")].

Definition one_url_loader (result : value) : ValyuLoader Sample.client :=
  mkValyuLoader "key" ["https://example.org/a"] Max Auto true
                [Return (Sample.ok_response [result])].

(** ** Sample searches *)

Definition unstructured_number : value :=
  VObj [("url", VStr "https://example.org/n"); ("title", VStr "N");
        ("content", VInt 5)].


Definition structured_number : value :=
  VObj [("url", VStr "https://example.org/s"); ("title", VStr "S");
        ("content", VInt 5); ("data_type", VStr "structured")].

Definition structured_mapping : value :=
  VObj [("url", VStr "https://example.org/j"); ("title", VStr "J");
        ("content", VDict [("a", VInt 1)]); ("data_type", VStr "structured")].

Definition empty_content_result : value :=
  VObj [("url", VStr "https://example.org/e"); ("title", VStr "E");
        ("content", VStr ""); ("snippet", VStr "")].

Definition none_fields_result : value :=
  VObj [("url", VStr "https://example.org/0"); ("title", VStr "Z");
        ("content", VNone); ("text", VNone); ("snippet", VNone)].


Definition raw_results : list value :=
  [structured_number; structured_mapping; empty_content_result;
   none_fields_result].



(** ** Further samples *)

Definition first_answer : res value :=
  Return (Sample.ok_response [VObj [("url", VStr "https://example.org/1");
                                    ("content", VStr "first")]]).

Definition last_answer : res value :=
  Return (Sample.ok_response [VObj [("url", VStr "https://example.org/21");
                                    ("content", VStr "last")]]).

(** A loader over 25 URLs whose second call is answered by [middle]. *)
Definition scripted_loader (continue_on_failure : bool) (middle : res value)
  : ValyuLoader Sample.client :=
  mkValyuLoader "key" Sample.urls25 Max Auto continue_on_failure
                [first_answer; middle; last_answer].

Definition first_events : list event :=
  [Request (firstn 10 Sample.urls25) Max Auto;
   Yield (mkDocument "first" [("source", VStr "https://example.org/1")])].

Definition result_with_metadata : value :=
  VObj [("url", VStr "https://example.org/a");
        ("content", VStr "x");
        ("metadata", VDict [("lang", VStr "en"); ("words", VInt 120)])].

Definition result_with_text_metadata : value :=
  VObj [("url", VStr "https://example.org/a");
        ("content", VStr "x");
        ("metadata", VStr "lang=en")].

Definition unsuccessful_search_answer : value :=
  VObj [("success", VBool false); ("error", VStr "quota");
        ("results", VList raw_results)].

Definition no_url_result : value :=
  VObj [("url", VStr ""); ("title", VStr "A"); ("content", VStr "c")].

Definition text_only_result : value :=
  VObj [("url", VStr "https://example.org/t"); ("title", VStr "T");
        ("content", VStr ""); ("text", VStr "from text");
        ("snippet", VStr "from snippet")].

Definition structured_text_result : value :=
  VObj [("url", VStr "https://example.org/q"); ("title", VStr "Q");
        ("content", VStr "plain"); ("data_type", VStr "structured")].

Definition more_results : list value :=
  [no_url_result; text_only_result; structured_text_result; structured_number].

(** A search over [results] through the sample SDK. *)
Definition sample_search_of (results : value) (count : Z)
    (filter_list : option (list string)) : M (list SearchResult) :=
  search_valyu (Return tt)
    (Sample.Valyu [Return (VObj [("success", VBool true); ("results", results)])])
    Sample.client_search Json.dumps Sample.str Sample.get_filtered_results
    "key" "rocq" count filter_list.

(** What the search hands to the filter for [more_results]. *)
Definition more_extracted : list dict :=
  [[("url", VStr "https://example.org/t"); ("title", VStr "T");
    ("content", VStr "from text"); ("data_type", VStr "unstructured")];
   [("url", VStr "https://example.org/q"); ("title", VStr "Q");
    ("content", VStr "plain"); ("data_type", VStr "structured")];
   [("url", VStr "https://example.org/s"); ("title", VStr "S");
    ("content", VStr "5"); ("data_type", VStr "structured")]].

Definition more_response : value :=
  VObj [("success", VBool true); ("results", VList more_results)].

(** A loader over 25 URLs whose first call raises. *)
Definition failing_first_loader : ValyuLoader Sample.client :=
  mkValyuLoader "key" Sample.urls25 Max Auto false
                [Raise (ProviderError "timeout"); first_answer; last_answer].

Definition mixed_results : list value :=
  [plain_result; VObj [("url", VStr "https://example.org/b")];
   result_with_metadata].

Definition number_content_result : value :=
  VObj [("url", VStr "https://example.org/n"); ("content", VInt 5)].

Definition results_with_number : list value :=
  [plain_result; number_content_result; result_with_metadata].



(** A package that is installed but fails to load. *)
Definition broken_import : res unit := Raise (ProviderError "broken package").

(** * Properties *)

(** ** Batching *)

Lemma chunks_concat : forall (A : Type) (n : nat) (l : list A),
  List.length l <= n * 10 ->
  List.concat (map (fun k => firstn 10 (skipn (k * 10) l)) (seq 0 n)) = l.
Proof.
  intros A n; induction n as [|n IH]; intros l Hlen.
  - destruct l; simpl in *; [reflexivity | lia].
  - rewrite <- cons_seq, <- seq_shift.
    cbn [map List.concat]. rewrite map_map.
    change (0 * 10) with 0. rewrite skipn_O.
    rewrite <- (firstn_skipn 10 l) at 2. f_equal.
    rewrite <- (IH (skipn 10 l)).
    + f_equal. apply map_ext. intros k. rewrite skipn_skipn.
      do 2 f_equal. lia.
    + rewrite length_skipn. lia.
Qed.

Lemma batch_count_bounds : forall len : nat,
  len <= ((len + batch_size - 1) / batch_size) * 10 /\
  (forall k, k < (len + batch_size - 1) / batch_size -> k * 10 < len).
Proof.
  intros len. unfold batch_size.
  pose proof (Nat.div_mod_eq (len + 10 - 1) 10) as E.
  pose proof (Nat.mod_upper_bound (len + 10 - 1) 10) as B.
  split; [lia | intros k Hk; lia].
Qed.

Lemma batches_unfold : forall urls : list string,
  batches urls =
  map (fun k => firstn 10 (skipn (k * 10) urls))
      (seq 0 ((List.length urls + batch_size - 1) / batch_size)).
Proof.
  intros urls. unfold batches, py_range, slice, batch_size.
  rewrite map_map. apply map_ext. intros k.
  replace (k * 10 + 10 - k * 10) with 10 by lia. reflexivity.
Qed.

Lemma batches_concat : forall urls : list string, List.concat (batches urls) = urls.
Proof.
  intros urls. rewrite batches_unfold. apply chunks_concat.
  apply batch_count_bounds.
Qed.

Lemma batches_sizes : forall urls : list string,
  Forall (fun b => 1 <= List.length b <= 10) (batches urls).
Proof.
  intros urls. rewrite batches_unfold. apply Forall_forall.
  intros b Hb. apply in_map_iff in Hb. destruct Hb as [k [<- Hk]].
  apply in_seq in Hk. destruct Hk as [_ Hk]. simpl in Hk.
  apply (proj2 (batch_count_bounds (List.length urls))) in Hk.
  rewrite length_firstn, length_skipn. lia.
Qed.

(** ** The loader's runs *)

Lemma requested_app : forall t1 t2,
  requested (t1 ++ t2) = requested t1 ++ requested t2.
Proof. intros. unfold requested. apply flat_map_app. Qed.

Lemma yielded_app : forall t1 t2,
  yielded (t1 ++ t2) = yielded t1 ++ yielded t2.
Proof. intros. unfold yielded. apply flat_map_app. Qed.

Lemma load_result_requested : forall result,
  requested (fst (load_result result)) = [].
Proof.
  intros result. unfold load_result.
  destruct (negb (truthy _)); [reflexivity|].
  destruct (new_Document _ _); reflexivity.
Qed.

Lemma load_results_requested : forall items,
  requested (fst (load_results items)) = [].
Proof.
  induction items as [|r items IH]; [reflexivity|].
  cbn [load_results].
  pose proof (load_result_requested r) as Hr.
  destruct (load_result r) as [t [[]|e]]; cbn [fst] in Hr.
  - destruct (load_results items) as [t' out]. cbn [fst] in *.
    rewrite requested_app, Hr, IH. reflexivity.
  - exact Hr.
Qed.

Section LoaderRuns.

Variable client : Type.
Variable contents :
  client -> list string -> response_length -> extract_effort -> res value * client.
Variable self : ValyuLoader client.

Lemma try_batch_requested : forall b r,
  requested (fst (try_batch self b r)) = [].
Proof.
  intros b r. unfold try_batch.
  destruct r as [response|e]; [|reflexivity].
  destruct (getattr_strict response "success") as [success|e]; [|reflexivity].
  destruct (negb (truthy success)); [reflexivity|].
  destruct (attr_lookup response "results") as [results|]; [|reflexivity].
  destruct (truthy results); [|reflexivity].
  destruct (py_iter results) as [items|e]; [|reflexivity].
  apply load_results_requested.
Qed.

(** A round of the loop sends exactly one request, for its batch. *)
Lemma load_batch_requested : forall c b,
  requested (fst (fst (load_batch contents self c b))) = [b].
Proof.
  intros c b. unfold load_batch.
  destruct (contents c b _ _) as [r c'].
  pose proof (try_batch_requested b r) as H.
  destruct (try_batch self b r) as [t out]. cbn [fst] in H.
  destruct out as [[]|e]; [|destruct (continue_on_failure self)];
    cbn [fst]; try rewrite requested_app; cbn [requested flat_map];
    fold (requested t); rewrite H; reflexivity.
Qed.

(** With continue_on_failure the [except] clause swallows every exception. *)
Lemma load_batch_continues : forall c b,
  continue_on_failure self = true ->
  snd (fst (load_batch contents self c b)) = Return tt.
Proof.
  intros c b Hcof. unfold load_batch.
  destruct (contents c b _ _) as [r c'].
  destruct (try_batch self b r) as [t out].
  destruct out as [[]|e]; [reflexivity|]. rewrite Hcof. reflexivity.
Qed.

Lemma load_batches_app : forall pre post c,
  load_batches contents self c (pre ++ post) =
  match load_batches contents self c pre with
  | (t, StopIteration, c') =>
      match load_batches contents self c' post with
      | (t', e, c'') => (t ++ t', e, c'')
      end
  | (t, Raised e, c') => (t, Raised e, c')
  end.
Proof.
  induction pre as [|b pre IH]; intros post c.
  - cbn. destruct (load_batches contents self c post) as [[t e] c'']. reflexivity.
  - cbn [app load_batches].
    destruct (load_batch contents self c b) as [[t out] c'].
    destruct out as [[]|e]; [|reflexivity].
    rewrite IH.
    destruct (load_batches contents self c' pre) as [[t1 e1] c1].
    destruct e1 as [|e1]; [|reflexivity].
    destruct (load_batches contents self c1 post) as [[t2 e2] c2].
    rewrite app_assoc. reflexivity.
Qed.

(** The requests of a run are the batches, in order, up to the one at
    which it stopped. *)
Lemma load_batches_requested : forall bs c,
  (exists rest, bs = requested (events_of (load_batches contents self c bs)) ++ rest) /\
  (ending_of (load_batches contents self c bs) = StopIteration ->
   requested (events_of (load_batches contents self c bs)) = bs).
Proof.
  induction bs as [|b bs IH]; intros c.
  - split; [exists []; reflexivity | reflexivity].
  - cbn [load_batches].
    pose proof (load_batch_requested c b) as Hb.
    destruct (load_batch contents self c b) as [[t out] c']. cbn [fst] in Hb.
    destruct out as [[]|e].
    + specialize (IH c').
      destruct (load_batches contents self c' bs) as [[t' e'] c''].
      unfold events_of, ending_of in *. cbn [fst snd] in *.
      rewrite requested_app, Hb. destruct IH as [[rest Hrest] Hall].
      split.
      * exists rest. cbn [app]. f_equal. exact Hrest.
      * intros He. cbn [app]. f_equal. apply Hall, He.
    + unfold events_of, ending_of. cbn [fst snd]. rewrite Hb.
      split; [exists bs; reflexivity | discriminate].
Qed.

Lemma load_batches_completes : forall bs c,
  continue_on_failure self = true ->
  ending_of (load_batches contents self c bs) = StopIteration.
Proof.
  induction bs as [|b bs IH]; intros c Hcof; [reflexivity|].
  cbn [load_batches].
  pose proof (load_batch_continues c b Hcof) as Hb.
  destruct (load_batch contents self c b) as [[t out] c']. cbn [fst snd] in Hb.
  subst out. specialize (IH c' Hcof).
  destruct (load_batches contents self c' bs) as [[t' e'] c''].
  exact IH.
Qed.

End LoaderRuns.

(** A round whose response says [success] is falsy: the request, the error
    record, and then either the next round or the exception. *)
Lemma load_batch_unsuccessful :
  forall client contents (self : ValyuLoader client) c b response c' success,
    contents c b (self_response_length self) (self_extract_effort self)
      = (Return response, c') ->
    getattr_strict response "success" = Return success ->
    truthy success = false ->
    load_batch contents self c b =
    ([Request b (self_response_length self) (self_extract_effort self);
      Logged (LogError (MsgBatchFailed b (getattr response "error" (VStr "Unknown error"))))],
     if continue_on_failure self
     then Return tt
     else Raise (ValyuApiError (getattr response "error" (VStr "Unknown error"))),
     c').
Proof.
  intros client contents self c b response c' success Hcall Hsucc Hfalse.
  unfold load_batch, try_batch. rewrite Hcall, Hsucc, Hfalse. cbn [negb].
  destruct (continue_on_failure self); reflexivity.
Qed.

(** ** Construction *)

(** C6. Constructing the loader with an empty URL list raises ValueError,
    whatever the API key, the tuning parameters and the SDK; and a loader
    that was constructed has at least one URL. *)
Theorem init_rejects_empty_urls :
  forall (client : Type) (import_valyu : res unit) (Valyu : string -> res client)
         (api_key : string) (rl : response_length) (ee : extract_effort)
         (cof : bool),
    init import_valyu Valyu (UrlList []) api_key rl ee cof
      = Raise (ValueError "At least one URL must be provided.") /\
    (forall given self,
        init import_valyu Valyu given api_key rl ee cof = Return self ->
        urls self <> []).
Proof.
  intros client import_valyu Valyu api_key rl ee cof. split; [reflexivity|].
  intros given self. unfold init.
  destruct given as [u|us]; cbn [urls_truthy urls_as_list].
  - destruct (String.eqb u ""); cbn [negb]; [discriminate|].
    destruct import_valyu as [[]|e];
      [|destruct (is_ImportError e); discriminate].
    destruct (Valyu api_key); [|discriminate].
    intros [= <-]. discriminate.
  - destruct us as [|u us]; cbn [negb]; [discriminate|].
    destruct import_valyu as [[]|e];
      [|destruct (is_ImportError e); discriminate].
    destruct (Valyu api_key); [|discriminate].
    intros [= <-]. discriminate.
Qed.

Lemma init_rejects_empty_urls_witness :
  init (Return tt) (Sample.Valyu []) (UrlList []) "key" Max Auto true
    = Raise (ValueError "At least one URL must be provided.") /\
  urls (mkValyuLoader "key" ["https://example.org/"] Max Auto true
          ([] : Sample.client)) <> [].
Proof.
  split.
  - apply (init_rejects_empty_urls Sample.client (Return tt) (Sample.Valyu [])
             "key" Max Auto true).
  - apply (proj2 (init_rejects_empty_urls Sample.client (Return tt) (Sample.Valyu [])
                    "key" Max Auto true)
             (UrlList ["https://example.org/"])).
    reflexivity.
Defined.

(** C9. The constructor accepts a single non-empty URL string: it becomes a
    one-element list, and lazy_load sends exactly one request, for the batch
    holding exactly that URL. *)
Theorem init_wraps_single_url :
  forall (client : Type) (Valyu : string -> res client)
         (contents : client -> list string -> response_length -> extract_effort
                     -> res value * client)
         (api_key : string) (rl : response_length) (ee : extract_effort)
         (cof : bool) (u : string) (c : client),
    u <> "" ->
    Valyu api_key = Return c ->
    exists self,
      init (Return tt) Valyu (UrlStr u) api_key rl ee cof = Return self /\
      urls self = [u] /\
      batches (urls self) = [[u]] /\
      requested (events_of (lazy_load contents self)) = [[u]].
Proof.
  intros client Valyu contents api_key rl ee cof u c Hu HValyu.
  exists (mkValyuLoader api_key [u] rl ee cof c).
  unfold init. cbn [urls_truthy urls_as_list negb].
  apply String.eqb_neq in Hu. rewrite Hu, HValyu. cbn [negb].
  repeat split.
  unfold lazy_load. cbn [urls self_client]. change (batches [u]) with [[u]].
  cbn [load_batches].
  pose proof (load_batch_requested client contents
                (mkValyuLoader api_key [u] rl ee cof c) c [u]) as Hb.
  destruct (load_batch contents _ c [u]) as [[t out] c']. cbn [fst] in Hb.
  destruct out as [[]|e]; unfold events_of; cbn [fst].
  - rewrite app_nil_r. exact Hb.
  - exact Hb.
Qed.

Lemma init_wraps_single_url_witness :
  exists self,
    init (Return tt) (Sample.Valyu [Return (Sample.ok_response [])])
         (UrlStr "https://example.org/") "key" Max Auto true = Return self /\
    urls self = ["https://example.org/"] /\
    batches (urls self) = [["https://example.org/"]] /\
    requested (events_of (lazy_load Sample.contents self)) = [["https://example.org/"]].
Proof.
  apply (init_wraps_single_url Sample.client
           (Sample.Valyu [Return (Sample.ok_response [])]) Sample.contents
           "key" Max Auto true "https://example.org/"
           [Return (Sample.ok_response [])]).
  - discriminate.
  - reflexivity.
Defined.

(** ** Batches and requests *)

(** A round either goes on to the next one, or, without continue_on_failure,
    ends the run with the exception its [try] body raised. *)
Lemma load_batch_cases :
  forall client contents (self : ValyuLoader client) c b,
    (exists t c', load_batch contents self c b = (t, Return tt, c') /\
                  requested t = [b]) \/
    (exists t e c', load_batch contents self c b = (t, Raise e, c') /\
                    requested t = [b] /\
                    continue_on_failure self = false /\
                    snd (try_batch self b
                           (fst (contents c b (self_response_length self)
                                          (self_extract_effort self)))) = Raise e).
Proof.
  intros client contents self c b.
  pose proof (load_batch_requested client contents self c b) as Hreq.
  unfold load_batch in *.
  destruct (contents c b _ _) as [r c0]. cbn [fst].
  destruct (try_batch self b r) as [t out].
  destruct out as [[]|e]; [|destruct (continue_on_failure self) eqn:Hcof].
  - left. eexists. eexists. split; [reflexivity | exact Hreq].
  - left. eexists. eexists. split; [reflexivity | exact Hreq].
  - right. eexists. exists e. eexists. cbn [snd].
    repeat split; [exact Hreq].
Qed.

(** A run sends one request per batch, in order, until it has gone through
    all of them or a round has raised. *)
Lemma load_batches_outcome :
  forall client contents (self : ValyuLoader client) bs c,
    (ending_of (load_batches contents self c bs) = StopIteration /\
     requested (events_of (load_batches contents self c bs)) = bs) \/
    (continue_on_failure self = false /\
     exists e pre b post t_pre c1,
       bs = pre ++ b :: post /\
       load_batches contents self c pre = (t_pre, StopIteration, c1) /\
       snd (try_batch self b
              (fst (contents c1 b (self_response_length self)
                             (self_extract_effort self)))) = Raise e /\
       ending_of (load_batches contents self c bs) = Raised e /\
       requested (events_of (load_batches contents self c bs)) = pre ++ [b]).
Proof.
  intros client contents self bs; induction bs as [|b0 bs IH]; intros c.
  - left. split; reflexivity.
  - cbn [load_batches].
    destruct (load_batch_cases client contents self c b0)
      as [(t & c' & Hb & Hreq) | (t & e & c' & Hb & Hreq & Hcof & Htry)];
      rewrite Hb.
    + destruct (IH c') as [[Hend Hall] | (Hcof & e & pre & b & post & t_pre & c1
                                          & Hbs & Hpre & Htry & Hend & Hall)].
      * left. destruct (load_batches contents self c' bs) as [[t' e'] c''].
        unfold events_of, ending_of in *. cbn [fst snd] in *.
        split; [exact Hend|]. rewrite requested_app, Hreq, Hall. reflexivity.
      * right. split; [exact Hcof|].
        exists e, (b0 :: pre), b, post, (t ++ t_pre), c1.
        destruct (load_batches contents self c' bs) as [[t' e'] c''].
        unfold events_of, ending_of in *. cbn [fst snd] in *.
        repeat split.
        -- rewrite Hbs. reflexivity.
        -- cbn [load_batches]. rewrite Hb, Hpre. reflexivity.
        -- exact Htry.
        -- exact Hend.
        -- rewrite requested_app, Hreq, Hall. reflexivity.
    + right. split; [exact Hcof|].
      exists e, [], b0, bs, [], c.
      unfold events_of, ending_of. cbn [fst snd].
      repeat split; [exact Htry | exact Hreq].
Qed.

(** C5, as stated, fails: without continue_on_failure a failing batch ends
    the run, so 25 URLs whose first call raises give one request, not three. *)
Lemma failing_batch_stops_requests :
  List.length (Sample.urls25) = 25 /\
  List.length (batches Sample.urls25) = 3 /\
  requested (events_of (lazy_load Sample.contents failing_first_loader))
    = [firstn 10 Sample.urls25] /\
  ending_of (lazy_load Sample.contents failing_first_loader)
    = Raised (ProviderError "timeout").
Proof.
  repeat split.
Qed.

(** C5, amended. The batches are consecutive pieces of the URL list, each of
    1 to 10 URLs, in the original order.  With continue_on_failure a run
    sends exactly one request per batch, in order, whatever the provider
    does: for 25 URLs, 3 requests of 10, 10 and 5 URLs.  Without it a run
    sends exactly one request per batch, in order, up to and including the
    first batch whose round raises, and none after it. *)
Theorem lazy_load_batches :
  forall (client : Type)
         (contents : client -> list string -> response_length -> extract_effort
                     -> res value * client)
         (self : ValyuLoader client),
    List.concat (batches (urls self)) = urls self /\
    Forall (fun b => 1 <= List.length b <= 10) (batches (urls self)) /\
    (continue_on_failure self = true ->
     ending_of (lazy_load contents self) = StopIteration /\
     requested (events_of (lazy_load contents self)) = batches (urls self)) /\
    ((ending_of (lazy_load contents self) = StopIteration /\
      requested (events_of (lazy_load contents self)) = batches (urls self)) \/
     (continue_on_failure self = false /\
      exists e pre b post t_pre c1,
        batches (urls self) = pre ++ b :: post /\
        load_batches contents self (self_client self) pre
          = (t_pre, StopIteration, c1) /\
        snd (try_batch self b
               (fst (contents c1 b (self_response_length self)
                              (self_extract_effort self)))) = Raise e /\
        ending_of (lazy_load contents self) = Raised e /\
        requested (events_of (lazy_load contents self)) = pre ++ [b])) /\
    (List.length (urls self) = 25 ->
     map (@List.length string) (batches (urls self)) = [10; 10; 5] /\
     (continue_on_failure self = true ->
      map (@List.length string) (requested (events_of (lazy_load contents self)))
        = [10; 10; 5])).
Proof.
  intros client contents self.
  pose proof (load_batches_outcome client contents self
                (batches (urls self)) (self_client self)) as Hout.
  assert (Hcont : continue_on_failure self = true ->
                  ending_of (lazy_load contents self) = StopIteration /\
                  requested (events_of (lazy_load contents self))
                    = batches (urls self)).
  { intros Hcof. unfold lazy_load.
    destruct Hout as [Hall | [Hfalse _]]; [exact Hall | congruence]. }
  split; [apply batches_concat|].
  split; [apply batches_sizes|].
  split; [exact Hcont|].
  split; [exact Hout|].
  intros Hlen.
  assert (Hsizes : map (@List.length string) (batches (urls self)) = [10; 10; 5]).
  { destruct (urls self) as [|u0 us]; [discriminate|].
    do 24 (destruct us as [|? us]; [discriminate|]).
    destruct us; [reflexivity | discriminate]. }
  split; [exact Hsizes|].
  intros Hcof. rewrite (proj2 (Hcont Hcof)). exact Hsizes.
Qed.

Lemma lazy_load_batches_witness :
  map (@List.length string)
      (requested (events_of (lazy_load Sample.contents
                               (sample_loader true (Sample.ok_response [])))))
    = [10; 10; 5].
Proof.
  destruct (lazy_load_batches Sample.client Sample.contents
              (sample_loader true (Sample.ok_response [])))
    as (_ & _ & _ & _ & H25).
  destruct (H25 eq_refl) as [_ Hrequests]. apply Hrequests. reflexivity.
Defined.

(** ** Unsuccessful responses *)

(** C4. A batch whose response has a falsy [success], after batches that
    went through: with continue_on_failure the run has the request and an
    error record for that batch, no document, and goes on with every later
    batch to its end; without it the run ends there with an exception, the
    failed batch is the last one requested, and what the earlier batches
    yielded stays as it was. *)
Theorem unsuccessful_batch_policy :
  forall (client : Type)
         (contents : client -> list string -> response_length -> extract_effort
                     -> res value * client)
         (self : ValyuLoader client)
         (pre post : list (list string)) (b : list string)
         (t_pre : list event) (c1 c2 : client) (response success : value),
    batches (urls self) = pre ++ b :: post ->
    load_batches contents self (self_client self) pre = (t_pre, StopIteration, c1) ->
    contents c1 b (self_response_length self) (self_extract_effort self)
      = (Return response, c2) ->
    getattr_strict response "success" = Return success ->
    truthy success = false ->
    let error_msg := getattr response "error" (VStr "Unknown error") in
    let failure :=
      [Request b (self_response_length self) (self_extract_effort self);
       Logged (LogError (MsgBatchFailed b error_msg))] in
    let later := load_batches contents self c2 post in
    yielded failure = [] /\
    (continue_on_failure self = true ->
       events_of (lazy_load contents self) = t_pre ++ failure ++ events_of later /\
       ending_of (lazy_load contents self) = StopIteration /\
       requested (events_of later) = post /\
       requested (events_of (lazy_load contents self)) = pre ++ b :: post) /\
    (continue_on_failure self = false ->
       lazy_load contents self
         = (t_pre ++ failure, Raised (ValyuApiError error_msg), c2) /\
       requested (events_of (lazy_load contents self)) = pre ++ [b] /\
       yielded (events_of (lazy_load contents self)) = yielded t_pre).
Proof.
  intros client contents self pre post b t_pre c1 c2 response success
         Hbs Hpre Hcall Hsucc Hfalse error_msg failure later.
  assert (Hreq_pre : requested t_pre = pre).
  { destruct (load_batches_requested client contents self pre (self_client self))
      as [_ H].
    rewrite Hpre in H. apply H. reflexivity. }
  pose proof (load_batch_unsuccessful client contents self c1 b response c2
                success Hcall Hsucc Hfalse) as Hb.
  fold error_msg in Hb. fold failure in Hb.
  split; [reflexivity|].
  unfold lazy_load. rewrite Hbs, load_batches_app, Hpre.
  cbn [load_batches]. rewrite Hb.
  split; intros Hcof; rewrite Hcof.
  - pose proof (load_batches_completes client contents self post c2 Hcof) as Hend.
    destruct (load_batches_requested client contents self post c2) as [_ Hpost].
    specialize (Hpost Hend). fold later in Hend, Hpost |- *.
    destruct later as [[t' e'] c'']. unfold events_of, ending_of in *.
    cbn [fst snd] in *.
    repeat split; try assumption.
    rewrite !requested_app, Hreq_pre, Hpost. reflexivity.
  - unfold events_of. cbn [fst].
    repeat split.
    + rewrite requested_app, Hreq_pre. reflexivity.
    + rewrite yielded_app. cbn. apply app_nil_r.
Qed.

Lemma unsuccessful_batch_policy_witness :
  (events_of (lazy_load Sample.contents
                (sample_loader true (Sample.failed_response "quota")))
   = [Request (firstn 10 Sample.urls25) Max Auto;
      Yield (mkDocument "first" [("source", VStr "https://example.org/1")]);
      Request (firstn 10 (skipn 10 Sample.urls25)) Max Auto;
      Logged (LogError (MsgBatchFailed (firstn 10 (skipn 10 Sample.urls25))
                                       (VStr "quota")));
      Request (skipn 20 Sample.urls25) Max Auto;
      Yield (mkDocument "last" [("source", VStr "https://example.org/21")])]) /\
  (lazy_load Sample.contents (sample_loader false (Sample.failed_response "quota"))
   = ([Request (firstn 10 Sample.urls25) Max Auto;
       Yield (mkDocument "first" [("source", VStr "https://example.org/1")]);
       Request (firstn 10 (skipn 10 Sample.urls25)) Max Auto;
       Logged (LogError (MsgBatchFailed (firstn 10 (skipn 10 Sample.urls25))
                                        (VStr "quota")))],
      Raised (ValyuApiError (VStr "quota")),
      [Return (Sample.ok_response [VObj [("url", VStr "https://example.org/21");
                                         ("content", VStr "last")]])])).
Proof.
  split.
  - destruct (unsuccessful_batch_policy Sample.client Sample.contents
                (sample_loader true (Sample.failed_response "quota"))
                [firstn 10 Sample.urls25] [skipn 20 Sample.urls25]
                (firstn 10 (skipn 10 Sample.urls25))
                [Request (firstn 10 Sample.urls25) Max Auto;
                 Yield (mkDocument "first"
                          [("source", VStr "https://example.org/1")])]
                (tl (three_answers (Sample.failed_response "quota")))
                (tl (tl (three_answers (Sample.failed_response "quota"))))
                (Sample.failed_response "quota") (VBool false)
                eq_refl eq_refl eq_refl eq_refl eq_refl)
      as (_ & Hcont & _).
    destruct (Hcont eq_refl) as (Hev & _). rewrite Hev. reflexivity.
  - destruct (unsuccessful_batch_policy Sample.client Sample.contents
                (sample_loader false (Sample.failed_response "quota"))
                [firstn 10 Sample.urls25] [skipn 20 Sample.urls25]
                (firstn 10 (skipn 10 Sample.urls25))
                [Request (firstn 10 Sample.urls25) Max Auto;
                 Yield (mkDocument "first"
                          [("source", VStr "https://example.org/1")])]
                (tl (three_answers (Sample.failed_response "quota")))
                (tl (tl (three_answers (Sample.failed_response "quota"))))
                (Sample.failed_response "quota") (VBool false)
                eq_refl eq_refl eq_refl eq_refl eq_refl)
      as (_ & _ & Hstop).
    destruct (Hstop eq_refl) as (Hrun & _). rewrite Hrun. reflexivity.
Defined.

(** ** Dicts *)

Lemma dict_get_set_same : forall k v d, dict_get k (dict_set k v d) = Some v.
Proof.
  intros k v d; induction d as [|[k' v'] d IH]; cbn.
  - rewrite String.eqb_refl. reflexivity.
  - destruct (String.eqb k k') eqn:E; cbn; rewrite E; [reflexivity | exact IH].
Qed.

Lemma dict_get_set_other : forall k k' v d,
  String.eqb k k' = false -> dict_get k (dict_set k' v d) = dict_get k d.
Proof.
  intros k k' v d Hne; induction d as [|[k0 v0] d IH]; cbn.
  - rewrite Hne. reflexivity.
  - destruct (String.eqb k' k0) eqn:E; cbn.
    + apply String.eqb_eq in E. subst k0. rewrite Hne. reflexivity.
    + destruct (String.eqb k k0); [reflexivity | exact IH].
Qed.

Lemma dict_get_app : forall k d1 d2,
  dict_get k (d1 ++ d2) =
  match dict_get k d1 with Some v => Some v | None => dict_get k d2 end.
Proof.
  intros k d1 d2; induction d1 as [|[k' v'] d1 IH]; cbn; [reflexivity|].
  destruct (String.eqb k k'); [reflexivity | exact IH].
Qed.

Lemma dict_get_None_iff : forall k d,
  dict_get k d = None <-> ~ In k (map fst d).
Proof.
  intros k d; induction d as [|[k' v'] d IH]; cbn.
  - split; [intros _ [] | reflexivity].
  - destruct (String.eqb k k') eqn:E.
    + apply String.eqb_eq in E. subst k'.
      split; [discriminate | intros H; exfalso; apply H; left; reflexivity].
    + apply String.eqb_neq in E. rewrite IH.
      split; [intros H [H1|H1]; [congruence | exact (H H1)]
             | intros H H1; apply H; right; exact H1].
Qed.

(** After [d.update(other)] a key has the value of its last item in
    [other], or else the value it had in [d]. *)
Lemma dict_get_update : forall k other d,
  dict_get k (dict_update d other) =
  match dict_get k (rev other) with
  | Some v => Some v
  | None => dict_get k d
  end.
Proof.
  intros k other; induction other as [|[k' v'] other IH]; intros d.
  - reflexivity.
  - change (dict_update d ((k', v') :: other))
      with (dict_update (dict_set k' v' d) other).
    rewrite IH. cbn [rev]. rewrite dict_get_app.
    destruct (dict_get k (rev other)); [reflexivity|].
    cbn. destruct (String.eqb k k') eqn:E.
    + apply String.eqb_eq in E. subst k'. apply dict_get_set_same.
    + apply dict_get_set_other. exact E.
Qed.

(** In a dict whose keys are distinct, as those of a Python dict are, the
    last item of a key is its only one. *)
Lemma dict_get_rev : forall k d,
  NoDup (map fst d) -> dict_get k (rev d) = dict_get k d.
Proof.
  intros k d; induction d as [|[k' v'] d IH]; intros Hnd; [reflexivity|].
  cbn [map fst] in Hnd. inversion Hnd as [|? ? Hnotin Hnd']; subst.
  cbn [rev]. rewrite dict_get_app, (IH Hnd'). cbn.
  destruct (String.eqb k k') eqn:E.
  - apply String.eqb_eq in E. subst k'.
    apply dict_get_None_iff in Hnotin. rewrite Hnotin. reflexivity.
  - destruct (dict_get k d); reflexivity.
Qed.

(** ** Documents *)

(** What a round of the loop over the results can do. *)
Lemma load_result_cases : forall result,
  (truthy (getattr result "content" (VStr "")) = false /\
   load_result result
   = ([Logged (LogWarning (MsgNoContent (getattr result "url" (VStr ""))))],
      Return tt)) \/
  (exists s md,
      getattr result "content" (VStr "") = VStr s /\ s <> "" /\
      load_result result = ([Yield (mkDocument s md)], Return tt)) \/
  (truthy (getattr result "content" (VStr "")) = true /\
   isinstance_str (getattr result "content" (VStr "")) = false /\
   load_result result = ([], Raise (ValidationError "Document"))).
Proof.
  intros result. unfold load_result.
  destruct (truthy (getattr result "content" (VStr ""))) eqn:Ht; cbn [negb].
  - destruct (getattr result "content" (VStr "")) as [| | |s| | |] eqn:Hc;
      try (right; right; repeat split; reflexivity).
    right; left. exists s. eexists. split; [reflexivity|]. split; [|reflexivity].
    intros ->. discriminate.
  - left. split; reflexivity.
Qed.

Lemma load_result_ok : forall result,
  content_ok result = true -> snd (load_result result) = Return tt.
Proof.
  intros result Hok. unfold content_ok in Hok.
  destruct (load_result_cases result)
    as [[_ H] | [(s & md & _ & _ & H) | (Ht & Hs & _)]];
    [rewrite H; reflexivity | rewrite H; reflexivity|].
  rewrite Ht, Hs in Hok. discriminate.
Qed.

(** Results whose contents are falsy or strings all go through. *)
Lemma load_results_ok : forall items,
  Forall (fun r => content_ok r = true) items ->
  load_results items = (flat_map result_events items, Return tt).
Proof.
  induction items as [|r items IH]; intros Hok; [reflexivity|].
  inversion Hok as [|? ? Hr Hitems]; subst.
  cbn [load_results flat_map]. unfold result_events at 1.
  pose proof (load_result_ok r Hr) as Hout.
  destruct (load_result r) as [t out]. cbn [fst snd] in *. subst out.
  rewrite (IH Hitems). reflexivity.
Qed.

(** Results up to one whose content [Document] refuses: the loop is left
    there. *)
Lemma load_results_invalid : forall before bad after,
  Forall (fun r => content_ok r = true) before ->
  content_ok bad = false ->
  load_results (before ++ bad :: after)
  = (flat_map result_events before, Raise (ValidationError "Document")).
Proof.
  induction before as [|r before IH]; intros bad after Hok Hbad.
  - cbn [app load_results flat_map]. unfold content_ok in Hbad.
    destruct (load_result_cases bad)
      as [[Ht _] | [(s & md & Hc & _ & _) | (_ & _ & H)]].
    + rewrite Ht in Hbad. discriminate.
    + rewrite Hc in Hbad. cbn in Hbad. rewrite orb_true_r in Hbad. discriminate.
    + rewrite H. reflexivity.
  - inversion Hok as [|? ? Hr Hbefore]; subst.
    cbn [app load_results flat_map]. unfold result_events at 1.
    pose proof (load_result_ok r Hr) as Hout.
    destruct (load_result r) as [t out]. cbn [fst snd] in *. subst out.
    rewrite (IH bad after Hbefore Hbad). reflexivity.
Qed.

Lemma load_results_yield_origin : forall items d,
  In d (yielded (fst (load_results items))) ->
  exists result, In result items /\ load_result result = ([Yield d], Return tt).
Proof.
  induction items as [|r items IH]; intros d Hd; [destruct Hd|].
  cbn [load_results] in Hd.
  destruct (load_result_cases r)
    as [[_ H] | [(s & md & _ & _ & H) | (_ & _ & H)]]; rewrite H in Hd.
  - destruct (load_results items) as [t' out]. cbn [fst] in *.
    rewrite yielded_app in Hd. cbn [yielded flat_map app] in Hd.
    destruct (IH d Hd) as [result [Hin Hres]].
    exists result. split; [right; exact Hin | exact Hres].
  - destruct (load_results items) as [t' out]. cbn [fst] in *.
    rewrite yielded_app in Hd. cbn [yielded flat_map app] in Hd.
    destruct Hd as [<-|Hd].
    + exists r. split; [left; reflexivity | exact H].
    + destruct (IH d Hd) as [result [Hin Hres]].
      exists result. split; [right; exact Hin | exact Hres].
  - destruct Hd.
Qed.

(** A document of a round was built from an item of the response that the
    provider gave for the round's batch. *)
Lemma try_batch_yield_origin :
  forall client (self : ValyuLoader client) b r d,
    In d (yielded (fst (try_batch self b r))) ->
    exists response results items result,
      r = Return response /\
      attr_lookup response "results" = Some results /\
      py_iter results = Return items /\
      In result items /\
      load_result result = ([Yield d], Return tt).
Proof.
  intros client self b r d. unfold try_batch.
  destruct r as [response|e]; [|intros []].
  destruct (getattr_strict response "success") as [success|e]; [|intros []].
  destruct (negb (truthy success)); [intros []|].
  destruct (attr_lookup response "results") as [results|] eqn:Hres; [|intros []].
  destruct (truthy results); [|intros []].
  destruct (py_iter results) as [items|e] eqn:Hiter; [|intros []].
  intros Hd. destruct (load_results_yield_origin items d Hd) as [result [Hin Hl]].
  exists response, results, items, result. repeat split; assumption.
Qed.

Lemma load_batch_yield_origin :
  forall client contents (self : ValyuLoader client) c b d,
    In d (yielded (fst (fst (load_batch contents self c b)))) ->
    exists response results items result,
      contents c b (self_response_length self) (self_extract_effort self)
        = (Return response, snd (load_batch contents self c b)) /\
      attr_lookup response "results" = Some results /\
      py_iter results = Return items /\
      In result items /\
      load_result result = ([Yield d], Return tt).
Proof.
  intros client contents self c b d. unfold load_batch.
  destruct (contents c b _ _) as [r c0].
  pose proof (try_batch_yield_origin client self b r d) as Horigin.
  destruct (try_batch self b r) as [t0 o]. cbn [fst] in Horigin.
  intros Hd.
  assert (Hd0 : In d (yielded t0)).
  { destruct o as [[]|e]; [|destruct (continue_on_failure self)];
      cbn [fst] in Hd.
    - exact Hd.
    - change (Request b (self_response_length self) (self_extract_effort self) :: t0)
        with ([Request b (self_response_length self) (self_extract_effort self)] ++ t0)
        in Hd.
      rewrite !yielded_app in Hd. cbn in Hd. rewrite app_nil_r in Hd. exact Hd.
    - exact Hd. }
  destruct (Horigin Hd0) as (response & results & items & result & -> & H).
  exists response, results, items, result.
  split; [|exact H].
  destruct o as [[]|e]; [|destruct (continue_on_failure self)]; reflexivity.
Qed.

(** Every document of a run was built from an item of the response that the
    provider gave for one of the batches, the rounds before it having gone
    through. *)
Lemma yielded_provenance :
  forall client contents (self : ValyuLoader client) bs c d,
    In d (yielded (events_of (load_batches contents self c bs))) ->
    exists pre b post t_pre c1 c2 response results items result,
      bs = pre ++ b :: post /\
      load_batches contents self c pre = (t_pre, StopIteration, c1) /\
      contents c1 b (self_response_length self) (self_extract_effort self)
        = (Return response, c2) /\
      attr_lookup response "results" = Some results /\
      py_iter results = Return items /\
      In result items /\
      load_result result = ([Yield d], Return tt).
Proof.
  intros client contents self bs; induction bs as [|b0 bs IH]; intros c d Hd.
  - destruct Hd.
  - cbn [load_batches] in Hd.
    pose proof (load_batch_yield_origin client contents self c b0 d) as Hhead.
    destruct (load_batch contents self c b0) as [[t out] c'] eqn:Hb.
    cbn [fst snd] in Hhead.
    assert (Hhere : In d (yielded t) ->
                    exists pre b post t_pre c1 c2 response results items result,
                      b0 :: bs = pre ++ b :: post /\
                      load_batches contents self c pre = (t_pre, StopIteration, c1) /\
                      contents c1 b (self_response_length self)
                               (self_extract_effort self) = (Return response, c2) /\
                      attr_lookup response "results" = Some results /\
                      py_iter results = Return items /\
                      In result items /\
                      load_result result = ([Yield d], Return tt)).
    { intros Hin.
      destruct (Hhead Hin) as (response & results & items & result & Hcall & H).
      exists [], b0, bs, [], c, c', response, results, items, result.
      split; [reflexivity|]. split; [reflexivity|]. split; [exact Hcall | exact H]. }
    destruct out as [[]|e].
    + specialize (IH c').
      destruct (load_batches contents self c' bs) as [[t' e'] c''] eqn:Hrest.
      unfold events_of in *. cbn [fst] in *.
      rewrite yielded_app in Hd. apply in_app_or in Hd.
      destruct Hd as [Hd|Hd]; [exact (Hhere Hd)|].
      destruct (IH d Hd)
        as (pre & b & post & t_pre & c1 & c2 & response & results & items & result
            & Hbs & Hpre & H).
      exists (b0 :: pre), b, post, (t ++ t_pre), c1, c2,
             response, results, items, result.
      split; [rewrite Hbs; reflexivity|].
      split; [cbn [load_batches]; rewrite Hb, Hpre; reflexivity | exact H].
    + unfold events_of in Hd. cbn [fst] in Hd. exact (Hhere Hd).
Qed.

(** The "source" of a yielded document: the last "source" item of the item's
    own metadata when that is a dict with one, the item's URL otherwise. *)
Lemma load_result_source : forall result d,
  load_result result = ([Yield d], Return tt) ->
  dict_get "source" (metadata d) =
  match attr_lookup result "metadata" with
  | Some (VDict pm) =>
      match dict_get "source" (rev pm) with
      | Some v => Some v
      | None => Some (getattr result "url" (VStr ""))
      end
  | _ => Some (getattr result "url" (VStr ""))
  end.
Proof.
  intros result d. unfold load_result.
  destruct (truthy (getattr result "content" (VStr ""))); cbn [negb];
    [|discriminate].
  destruct (getattr result "content" (VStr "")); cbn [new_Document];
    try discriminate.
  intros [= <-]. cbn [metadata].
  destruct (attr_lookup result "metadata") as [m|]; [|reflexivity].
  destruct m as [| | | | |pm|];
    try (match goal with |- context [if ?t then _ else _] => destruct t end;
         reflexivity).
  destruct pm as [|kv pm]; [reflexivity|]. cbn [truthy].
  rewrite dict_get_update. cbn [dict_get]. rewrite String.eqb_refl.
  destruct (dict_get "source" (rev (kv :: pm))); reflexivity.
Qed.

(** C1, as stated, fails: a result whose own metadata has a "source" entry
    yields a document whose "source" is that entry, not the result's URL. *)
Lemma source_overridden_by_result_metadata :
  yielded (events_of (lazy_load Sample.contents
                        (one_url_loader result_with_own_source)))
    = [mkDocument "x"
         [("source", VStr "https://elsewhere.example/"); ("lang", VStr "en")]] /\
  getattr result_with_own_source "url" (VStr "") = VStr "https://example.org/a" /\
  dict_get "source"
    [("source", VStr "https://elsewhere.example/"); ("lang", VStr "en")]
    <> Some (VStr "https://example.org/a").
Proof.
  split; [reflexivity|]. split; [reflexivity|]. discriminate.
Qed.

(** C1, amended. Every document yielded by lazy_load was built from a result
    of the response that the provider gave for one of the batches, and its
    metadata has the key "source"; the value is that result's URL, unless
    the result's own metadata is a dict with a "source" entry, whose value
    then takes its place. *)
Theorem yielded_metadata_source :
  forall (client : Type)
         (contents : client -> list string -> response_length -> extract_effort
                     -> res value * client)
         (self : ValyuLoader client) (d : Document),
    In d (yielded (events_of (lazy_load contents self))) ->
    exists pre b post t_pre c1 c2 response results items result,
      batches (urls self) = pre ++ b :: post /\
      load_batches contents self (self_client self) pre
        = (t_pre, StopIteration, c1) /\
      contents c1 b (self_response_length self) (self_extract_effort self)
        = (Return response, c2) /\
      attr_lookup response "results" = Some results /\
      py_iter results = Return items /\
      In result items /\
      load_result result = ([Yield d], Return tt) /\
      (exists v, dict_get "source" (metadata d) = Some v) /\
      (forall pm,
          attr_lookup result "metadata" = Some (VDict pm) ->
          NoDup (map fst pm) ->
          dict_get "source" (metadata d)
            = Some (dict_get_default pm "source" (getattr result "url" (VStr "")))) /\
      ((forall pm, attr_lookup result "metadata" <> Some (VDict pm)) ->
       dict_get "source" (metadata d) = Some (getattr result "url" (VStr ""))).
Proof.
  intros client contents self d Hd.
  apply yielded_provenance in Hd.
  destruct Hd as (pre & b & post & t_pre & c1 & c2 & response & results & items
                  & result & Hbs & Hpre & Hcall & Hres & Hiter & Hin & Hload).
  exists pre, b, post, t_pre, c1, c2, response, results, items, result.
  repeat (split; [assumption|]).
  rewrite (load_result_source result d Hload).
  destruct (attr_lookup result "metadata") as [m|].
  - destruct m as [| | | | |pm|];
      try (split; [eexists; reflexivity|];
           split; [intros pm' [=] | intros _; reflexivity]).
    split; [destruct (dict_get "source" (rev pm)); eexists; reflexivity|].
    split.
    + intros pm' [= <-] Hnd. rewrite (dict_get_rev _ _ Hnd).
      unfold dict_get_default. destruct (dict_get "source" pm); reflexivity.
    + intros Hnone. exfalso. exact (Hnone pm eq_refl).
  - split; [eexists; reflexivity|].
    split; [intros pm' [=] | intros _; reflexivity].
Qed.

Lemma yielded_metadata_source_witness :
  exists result,
    In result [result_with_own_source] /\
    load_result result
    = ([Yield (mkDocument "x"
                 [("source", VStr "https://elsewhere.example/");
                  ("lang", VStr "en")])],
       Return tt) /\
    dict_get "source"
      [("source", VStr "https://elsewhere.example/"); ("lang", VStr "en")]
    = Some (dict_get_default
              [("lang", VStr "en"); ("source", VStr "https://elsewhere.example/")]
              "source" (getattr result "url" (VStr ""))).
Proof.
  destruct (yielded_metadata_source Sample.client Sample.contents
              (one_url_loader result_with_own_source)
              (mkDocument "x"
                 [("source", VStr "https://elsewhere.example/"); ("lang", VStr "en")])
              (or_introl eq_refl))
    as (pre & b & post & t_pre & c1 & c2 & response & results & items & result
        & Hbs & Hpre & Hcall & Hres & Hiter & Hin & Hload & _ & Hdict & _).
  assert (Hitems : items = [result_with_own_source]).
  { destruct pre as [|b0 pre].
    - cbn in Hbs, Hpre. injection Hpre as _ <-. injection Hbs as <- _.
      cbn in Hcall. injection Hcall as <- _. cbn in Hres. injection Hres as <-.
      cbn in Hiter. injection Hiter as <-. reflexivity.
    - cbn in Hbs. injection Hbs as _ Hbs. destruct pre; discriminate. }
  subst items. exists result. split; [exact Hin|]. split; [exact Hload|].
  destruct Hin as [<-|[]]. apply (Hdict _ eq_refl).
  repeat constructor; cbn; intuition discriminate.
Defined.

(** * Further properties of the loader *)

(** ** Construction *)

(** X1. The constructor succeeds exactly when urls is truthy, the valyu
    package can be imported and the client constructor returns; the loader
    then holds the arguments as given, urls as a list, and that client. *)
Theorem init_succeeds_iff :
  forall (client : Type) (import_valyu : res unit) (Valyu : string -> res client)
         (given : urls_arg) (api_key : string) (rl : response_length)
         (ee : extract_effort) (cof : bool) (self : ValyuLoader client),
    init import_valyu Valyu given api_key rl ee cof = Return self <->
    (urls_truthy given = true /\
     import_valyu = Return tt /\
     exists c, Valyu api_key = Return c /\
               self = mkValyuLoader api_key (urls_as_list given) rl ee cof c).
Proof.
  intros client import_valyu Valyu given api_key rl ee cof self. unfold init.
  split.
  - destruct (urls_truthy given); cbn [negb]; [|discriminate].
    destruct import_valyu as [[]|e];
      [|destruct (is_ImportError e); discriminate].
    destruct (Valyu api_key) as [c|e]; [|discriminate].
    intros [= <-]. repeat split. exists c. split; reflexivity.
  - intros (-> & -> & c & -> & ->). reflexivity.
Qed.

(** X2. The constructor's failures, in the order it checks: a falsy urls (the
    empty list or the empty string) raises ValueError even when the package is
    missing; then a missing package raises ImportError, and any other
    exception of the import comes out unchanged; then whatever the client
    constructor raises comes out unchanged. *)
Theorem init_failures :
  forall (client : Type) (Valyu : string -> res client)
         (given : urls_arg) (api_key : string) (rl : response_length)
         (ee : extract_effort) (cof : bool),
    (urls_truthy given = false ->
     forall import_valyu,
       init import_valyu Valyu given api_key rl ee cof
       = Raise (ValueError "At least one URL must be provided.")) /\
    (urls_truthy given = true ->
     forall msg,
       init (Raise (ImportError msg)) Valyu given api_key rl ee cof
       = Raise (ImportError
                  "valyu package not found. Please install it with: pip install valyu")) /\
    (urls_truthy given = true ->
     forall e, is_ImportError e = false ->
               init (Raise e) Valyu given api_key rl ee cof = Raise e) /\
    (urls_truthy given = true ->
     forall e, Valyu api_key = Raise e ->
               init (Return tt) Valyu given api_key rl ee cof = Raise e).
Proof.
  intros client Valyu given api_key rl ee cof. unfold init.
  split; [|split; [|split]].
  - intros ->. reflexivity.
  - intros ->. reflexivity.
  - intros -> e He. cbn [negb]. rewrite He. reflexivity.
  - intros -> e ->. reflexivity.
Qed.

Lemma init_failures_witness :
  init (Raise (ImportError "No module named valyu")) Sample.Valyu_raising
       (UrlStr "") "key" Max Auto true
    = Raise (ValueError "At least one URL must be provided.") /\
  init (Raise (ImportError "No module named valyu")) Sample.Valyu_raising
       (UrlStr "https://example.org/") "key" Max Auto true
    = Raise (ImportError
               "valyu package not found. Please install it with: pip install valyu") /\
  init (Return tt) Sample.Valyu_raising (UrlStr "https://example.org/")
       "key" Max Auto true
    = Raise (ProviderError "invalid API key").
Proof.
  split; [|split].
  - apply (proj1 (init_failures Sample.client Sample.Valyu_raising (UrlStr "")
                    "key" Max Auto true)).
    reflexivity.
  - apply (proj1 (proj2 (init_failures Sample.client Sample.Valyu_raising
                           (UrlStr "https://example.org/") "key" Max Auto true))).
    reflexivity.
  - apply (proj2 (proj2 (proj2 (init_failures Sample.client Sample.Valyu_raising
                           (UrlStr "https://example.org/") "key" Max Auto true))));
      reflexivity.
Defined.

(** ** Batches *)

Lemma batches_length : forall urls : list string,
  List.length (batches urls) = (List.length urls + 9) / 10.
Proof.
  intros urls. rewrite batches_unfold, length_map, length_seq.
  unfold batch_size. f_equal. lia.
Qed.

(** X3. The number of batches is the URL count divided by 10, rounded up;
    batch k is the 10 URLs from position 10k on, fewer at the end of the
    list, and every batch but the last has exactly 10. *)
Theorem batches_positions :
  forall urls : list string,
    List.length (batches urls) = (List.length urls + 9) / 10 /\
    (forall k,
        k < List.length (batches urls) ->
        nth k (batches urls) [] = firstn 10 (skipn (k * 10) urls) /\
        (k + 1 < List.length (batches urls) ->
         List.length (nth k (batches urls) []) = 10)).
Proof.
  intros urls. split; [apply batches_length|].
  intros k Hk.
  assert (Hnth : nth k (batches urls) [] = firstn 10 (skipn (k * 10) urls)).
  { rewrite batches_unfold in *. rewrite length_map, length_seq in Hk.
    rewrite (nth_indep _ [] (firstn 10 (skipn (0 * 10) urls)))
      by (rewrite length_map, length_seq; exact Hk).
    rewrite (map_nth (fun k => firstn 10 (skipn (k * 10) urls))).
    rewrite seq_nth by exact Hk. reflexivity. }
  split; [exact Hnth|].
  intros Hk1. rewrite Hnth, length_firstn, length_skipn.
  rewrite batches_unfold, length_map, length_seq in Hk1.
  apply (proj2 (batch_count_bounds (List.length urls))) in Hk1. lia.
Qed.

Lemma batches_positions_witness :
  nth 1 (batches Sample.urls25) [] = firstn 10 (skipn 10 Sample.urls25) /\
  List.length (nth 1 (batches Sample.urls25) []) = 10.
Proof.
  destruct (proj2 (batches_positions Sample.urls25) 1) as [Hnth Hfull].
  - vm_compute. lia.
  - split; [exact Hnth | apply Hfull; vm_compute; lia].
Defined.

(** ** Runs, round by round *)

Section LoaderRounds.

Variable client : Type.
Variable contents :
  client -> list string -> response_length -> extract_effort -> res value * client.
Variable self : ValyuLoader client.

(** A run, cut at one of its rounds: the rounds before it went through. *)
Lemma lazy_load_round :
  forall pre b post t_pre c1 t_b out c2,
    batches (urls self) = pre ++ b :: post ->
    load_batches contents self (self_client self) pre = (t_pre, StopIteration, c1) ->
    load_batch contents self c1 b = (t_b, out, c2) ->
    lazy_load contents self =
    match out with
    | Return _ =>
        match load_batches contents self c2 post with
        | (t', e, c') => (t_pre ++ t_b ++ t', e, c')
        end
    | Raise e => (t_pre ++ t_b, Raised e, c2)
    end.
Proof.
  intros pre b post t_pre c1 t_b out c2 Hbs Hpre Hb.
  unfold lazy_load. rewrite Hbs, load_batches_app, Hpre.
  cbn [load_batches]. rewrite Hb.
  destruct out as [[]|e]; [|reflexivity].
  destruct (load_batches contents self c2 post) as [[t' e'] c']. reflexivity.
Qed.

(** A round whose call raises. *)
Lemma load_batch_call_raises : forall c b e c',
  contents c b (self_response_length self) (self_extract_effort self)
    = (Raise e, c') ->
  load_batch contents self c b =
  if continue_on_failure self
  then ([Request b (self_response_length self) (self_extract_effort self);
         Logged (LogError (MsgBatchError b e))], Return tt, c')
  else ([Request b (self_response_length self) (self_extract_effort self)],
        Raise e, c').
Proof.
  intros c b e c' Hcall. unfold load_batch, try_batch. rewrite Hcall.
  destruct (continue_on_failure self); reflexivity.
Qed.

(** X4. With continue_on_failure a run never raises, whatever the provider
    does: it reaches its end, having sent one request per batch, each with
    the configured response_length and extract_effort. *)
Theorem continue_on_failure_reaches_end :
  continue_on_failure self = true ->
  ending_of (lazy_load contents self) = StopIteration /\
  List.length (requested (events_of (lazy_load contents self)))
    = (List.length (urls self) + 9) / 10 /\
  (forall b rl ee,
      In (Request b rl ee) (events_of (lazy_load contents self)) ->
      rl = self_response_length self /\ ee = self_extract_effort self).
Proof.
  intros Hcof. unfold lazy_load.
  pose proof (load_batches_completes client contents self
                (batches (urls self)) (self_client self) Hcof) as Hend.
  destruct (load_batches_requested client contents self
              (batches (urls self)) (self_client self)) as [_ Hall].
  split; [exact Hend|]. split.
  - rewrite (Hall Hend). apply batches_length.
  - generalize (batches (urls self)) (self_client self).
    intros bs; induction bs as [|b0 bs IH]; intros c b rl ee Hin.
    + destruct Hin.
    + cbn [load_batches] in Hin.
      assert (Hround : forall t out c',
                 load_batch contents self c b0 = (t, out, c') ->
                 In (Request b rl ee) t ->
                 rl = self_response_length self /\ ee = self_extract_effort self).
      { unfold load_batch. intros t out c'.
        destruct (contents c b0 _ _) as [r c0].
        pose proof (try_batch_requested client self b0 r) as Hnone.
        destruct (try_batch self b0 r) as [t0 out0]. cbn [fst] in Hnone.
        assert (Hno : ~ In (Request b rl ee) t0).
        { intros Hreq. assert (Hb : In b (requested t0)).
          { unfold requested. apply in_flat_map.
            exists (Request b rl ee). split; [exact Hreq | left; reflexivity]. }
          rewrite Hnone in Hb. destruct Hb. }
        destruct out0 as [[]|e]; [|destruct (continue_on_failure self)];
          intros [= <- <- <-] Hreq.
        - destruct Hreq as [[= _ <- <-]|Hreq]; [split; reflexivity | contradiction].
        - destruct Hreq as [[= _ <- <-]|Hreq]; [split; reflexivity|].
          apply in_app_or in Hreq. destruct Hreq as [Hreq|[Hreq|[]]];
            [contradiction | discriminate].
        - destruct Hreq as [[= _ <- <-]|Hreq]; [split; reflexivity | contradiction]. }
      destruct (load_batch contents self c b0) as [[t out] c'].
      specialize (Hround t out c' eq_refl).
      destruct out as [[]|e].
      * specialize (IH c').
        destruct (load_batches contents self c' bs) as [[t' e'] c''].
        unfold events_of in *. cbn [fst] in *.
        apply in_app_or in Hin. destruct Hin as [Hin|Hin];
          [apply Hround, Hin | apply (IH b rl ee), Hin].
      * unfold events_of in Hin. cbn [fst] in Hin. apply Hround, Hin.
Qed.

Variables pre post : list (list string).
Variable b : list string.
Variable t_pre : list event.
Variables c1 c2 : client.

Hypothesis Hbatches : batches (urls self) = pre ++ b :: post.
Hypothesis Hpre :
  load_batches contents self (self_client self) pre = (t_pre, StopIteration, c1).

Local Abbreviation request :=
  (Request b (self_response_length self) (self_extract_effort self)).

(** X5. When the provider call itself raises an exception: with
    continue_on_failure the error is logged, the batch gives no document and
    the run goes on with the later batches; without it the run ends there
    with that very exception, nothing after the failed batch is requested,
    and what was yielded before stays. *)
Theorem provider_exception_policy :
  forall e,
    contents c1 b (self_response_length self) (self_extract_effort self)
      = (Raise e, c2) ->
    (continue_on_failure self = true ->
     events_of (lazy_load contents self)
       = t_pre ++ [request; Logged (LogError (MsgBatchError b e))]
               ++ events_of (load_batches contents self c2 post) /\
     ending_of (lazy_load contents self)
       = ending_of (load_batches contents self c2 post)) /\
    (continue_on_failure self = false ->
     lazy_load contents self = (t_pre ++ [request], Raised e, c2) /\
     yielded (events_of (lazy_load contents self)) = yielded t_pre).
Proof.
  intros e Hcall.
  pose proof (load_batch_call_raises c1 b e c2 Hcall) as Hb.
  split; intros Hcof; rewrite Hcof in Hb;
    rewrite (lazy_load_round pre b post t_pre c1 _ _ c2 Hbatches Hpre Hb).
  - destruct (load_batches contents self c2 post) as [[t' e'] c'].
    split; reflexivity.
  - split; [reflexivity|]. unfold events_of. cbn [fst].
    rewrite yielded_app. cbn. apply app_nil_r.
Qed.

End LoaderRounds.

Lemma continue_on_failure_reaches_end_witness :
  ending_of (lazy_load Sample.contents
               (scripted_loader true (Raise (ProviderError "timeout"))))
    = StopIteration /\
  List.length (requested (events_of
                 (lazy_load Sample.contents
                    (scripted_loader true (Raise (ProviderError "timeout"))))))
    = 3.
Proof.
  destruct (continue_on_failure_reaches_end Sample.client Sample.contents
              (scripted_loader true (Raise (ProviderError "timeout"))) eq_refl)
    as (Hend & Hcount & _).
  split; [exact Hend | rewrite Hcount; reflexivity].
Defined.

Lemma provider_exception_policy_witness :
  lazy_load Sample.contents (scripted_loader false (Raise (ProviderError "timeout")))
  = (first_events ++ [Request (firstn 10 (skipn 10 Sample.urls25)) Max Auto],
     Raised (ProviderError "timeout"),
     [last_answer]).
Proof.
  apply (proj2 (provider_exception_policy Sample.client Sample.contents
                  (scripted_loader false (Raise (ProviderError "timeout")))
                  [firstn 10 Sample.urls25] [skipn 20 Sample.urls25]
                  (firstn 10 (skipn 10 Sample.urls25))
                  first_events
                  [Raise (ProviderError "timeout"); last_answer] [last_answer]
                  eq_refl eq_refl (ProviderError "timeout") eq_refl)).
  reflexivity.
Defined.

(** ** Rounds whose call returns *)

(** The contents of the documents of results that all go through are the
    truthy contents of the results, in order. *)
Lemma result_events_contents : forall items,
  Forall (fun r => content_ok r = true) items ->
  map VStr (map page_content (yielded (flat_map result_events items)))
  = filter truthy (map (fun r => getattr r "content" (VStr "")) items).
Proof.
  induction items as [|r items IH]; intros Hok; [reflexivity|].
  inversion Hok as [|? ? Hr Hitems]; subst.
  cbn [flat_map map filter]. rewrite yielded_app, !map_app, (IH Hitems).
  unfold result_events at 1. unfold content_ok in Hr.
  destruct (load_result_cases r)
    as [[Ht H] | [(s & md & Hc & Hs & H) | (Ht & Hstr & _)]].
  - rewrite H, Ht. reflexivity.
  - rewrite H, Hc. cbn. destruct (String.eqb s "") eqn:E; [|reflexivity].
    apply String.eqb_eq in E. contradiction.
  - rewrite Ht, Hstr in Hr. discriminate.
Qed.

(** Something that iterates to at least one item is truthy. *)
Lemma py_iter_truthy : forall v item items,
  py_iter v = Return (item :: items) -> truthy v = true.
Proof.
  intros v item items H. destruct v; cbn in *; try discriminate.
  - destruct s; [discriminate | reflexivity].
  - injection H as ->. reflexivity.
  - destruct items0; [discriminate | reflexivity].
Qed.


Section LoaderResponses.

Variable client : Type.
Variable contents :
  client -> list string -> response_length -> extract_effort -> res value * client.
Variable self : ValyuLoader client.
Variables pre post : list (list string).
Variable b : list string.
Variable t_pre : list event.
Variables c1 c2 : client.
Variable response : value.

Hypothesis Hbatches : batches (urls self) = pre ++ b :: post.
Hypothesis Hpre :
  load_batches contents self (self_client self) pre = (t_pre, StopIteration, c1).
Hypothesis Hcall :
  contents c1 b (self_response_length self) (self_extract_effort self)
    = (Return response, c2).

Local Abbreviation request :=
  (Request b (self_response_length self) (self_extract_effort self)).

(** X6. A response the loader cannot read, because it has no success
    attribute or because its results are truthy but cannot be iterated, is
    handled as an exception of the call is: AttributeError or TypeError,
    logged and skipped with continue_on_failure, raised without it. *)
Theorem malformed_response_policy :
  forall e,
    (attr_lookup response "success" = None /\ e = AttributeError "success") \/
    (exists success results,
        attr_lookup response "success" = Some success /\
        truthy success = true /\
        attr_lookup response "results" = Some results /\
        truthy results = true /\
        py_iter results = Raise e) ->
    (continue_on_failure self = true ->
     events_of (lazy_load contents self)
       = t_pre ++ [request; Logged (LogError (MsgBatchError b e))]
               ++ events_of (load_batches contents self c2 post) /\
     ending_of (lazy_load contents self)
       = ending_of (load_batches contents self c2 post)) /\
    (continue_on_failure self = false ->
     lazy_load contents self = (t_pre ++ [request], Raised e, c2)).
Proof.
  intros e Hbad.
  assert (Hb : load_batch contents self c1 b =
               if continue_on_failure self
               then ([request; Logged (LogError (MsgBatchError b e))], Return tt, c2)
               else ([request], Raise e, c2)).
  { unfold load_batch, try_batch, getattr_strict. rewrite Hcall.
    destruct Hbad as [[Hnone ->] | (success & results & Hs & Ht & Hr & Htr & Hiter)].
    - rewrite Hnone. destruct (continue_on_failure self); reflexivity.
    - rewrite Hs, Ht, Hr, Htr, Hiter. cbn [negb].
      destruct (continue_on_failure self); reflexivity. }
  split; intros Hcof; rewrite Hcof in Hb;
    rewrite (lazy_load_round client contents self pre b post t_pre c1 _ _ c2
               Hbatches Hpre Hb).
  - destruct (load_batches contents self c2 post) as [[t' e'] c'].
    split; reflexivity.
  - reflexivity.
Qed.

Variable success : value.
Hypothesis Hsuccess : attr_lookup response "success" = Some success.
Hypothesis Htruthy : truthy success = true.

(** X7. A successful response without results (the attribute is absent, or
    None, or an empty list) is no error: a warning is logged, nothing is
    yielded for the batch, and the run goes on, with or without
    continue_on_failure. *)
Theorem empty_results_skipped :
  truthy (getattr response "results" VNone) = false ->
  events_of (lazy_load contents self)
    = t_pre ++ [request; Logged (LogWarning (MsgNoResults b))]
            ++ events_of (load_batches contents self c2 post) /\
  ending_of (lazy_load contents self)
    = ending_of (load_batches contents self c2 post).
Proof.
  intros Hnone.
  assert (Hb : load_batch contents self c1 b =
               ([request; Logged (LogWarning (MsgNoResults b))], Return tt, c2)).
  { unfold load_batch, try_batch, getattr_strict. rewrite Hcall, Hsuccess, Htruthy.
    cbn [negb]. unfold getattr in Hnone.
    destruct (attr_lookup response "results") as [results|]; [|reflexivity].
    rewrite Hnone. reflexivity. }
  rewrite (lazy_load_round client contents self pre b post t_pre c1 _ _ c2
             Hbatches Hpre Hb).
  destruct (load_batches contents self c2 post) as [[t' e'] c'].
  split; reflexivity.
Qed.

Variable results : value.
Hypothesis Hresults : attr_lookup response "results" = Some results.
Hypothesis Hnonempty : truthy results = true.

(** The round of the batch, given what the loop over the results does. *)
Lemma load_batch_results : forall items,
  py_iter results = Return items ->
  load_batch contents self c1 b =
  match load_results items with
  | (t, Return _) => (request :: t, Return tt, c2)
  | (t, Raise e) =>
      if continue_on_failure self
      then ((request :: t) ++ [Logged (LogError (MsgBatchError b e))], Return tt, c2)
      else (request :: t, Raise e, c2)
  end.
Proof.
  intros items Hiter. unfold load_batch, try_batch, getattr_strict.
  rewrite Hcall, Hsuccess, Htruthy, Hresults, Hnonempty, Hiter. cbn [negb].
  destruct (load_results items) as [t [[]|e]]; reflexivity.
Qed.

Lemma batch_events_ok : forall items,
  py_iter results = Return items ->
  Forall (fun r => content_ok r = true) items ->
  events_of (lazy_load contents self)
    = t_pre ++ (request :: flat_map result_events items)
            ++ events_of (load_batches contents self c2 post) /\
  ending_of (lazy_load contents self)
    = ending_of (load_batches contents self c2 post).
Proof.
  intros items Hiter Hok.
  pose proof (load_batch_results items Hiter) as Hb.
  rewrite (load_results_ok items Hok) in Hb.
  rewrite (lazy_load_round client contents self pre b post t_pre c1 _ _ c2
             Hbatches Hpre Hb).
  destruct (load_batches contents self c2 post) as [[t' e'] c'].
  split; reflexivity.
Qed.

(** X8. A successful response whose results all have a content that is
    falsy or a string: the batch's events are its request and then what each
    result gives, in the provider's order; the documents' contents are
    exactly the truthy contents of the results, in that order, so there is
    one document per result with content and none for the others; then the
    run goes on. *)
Theorem batch_documents_in_order :
  forall items,
    py_iter results = Return items ->
    Forall (fun r => content_ok r = true) items ->
    events_of (lazy_load contents self)
      = t_pre ++ (request :: flat_map result_events items)
              ++ events_of (load_batches contents self c2 post) /\
    ending_of (lazy_load contents self)
      = ending_of (load_batches contents self c2 post) /\
    map VStr (map page_content (yielded (flat_map result_events items)))
      = filter truthy (map (fun r => getattr r "content" (VStr "")) items).
Proof.
  intros items Hiter Hok.
  destruct (batch_events_ok items Hiter Hok) as [Hev Hend].
  split; [exact Hev|]. split; [exact Hend|].
  apply result_events_contents. exact Hok.
Qed.

(** X19. A result whose content is truthy but not a string is refused by
    [Document], inside the [try]: the results before it have given their
    documents, the results after it in the batch are lost; with
    continue_on_failure the error is logged and the run goes on with the next
    batch, without it the run ends with that exception. *)
Theorem invalid_content_ends_batch :
  forall before bad after,
    py_iter results = Return (before ++ bad :: after) ->
    Forall (fun r => content_ok r = true) before ->
    content_ok bad = false ->
    (continue_on_failure self = true ->
     events_of (lazy_load contents self)
       = t_pre ++ (request :: flat_map result_events before
                     ++ [Logged (LogError (MsgBatchError b (ValidationError "Document")))])
               ++ events_of (load_batches contents self c2 post) /\
     ending_of (lazy_load contents self)
       = ending_of (load_batches contents self c2 post)) /\
    (continue_on_failure self = false ->
     lazy_load contents self
     = (t_pre ++ request :: flat_map result_events before,
        Raised (ValidationError "Document"), c2)).
Proof.
  intros before bad after Hiter Hok Hbad.
  pose proof (load_batch_results _ Hiter) as Hb.
  rewrite (load_results_invalid before bad after Hok Hbad) in Hb.
  split; intros Hcof; rewrite Hcof in Hb;
    rewrite (lazy_load_round client contents self pre b post t_pre c1 _ _ c2
               Hbatches Hpre Hb).
  - destruct (load_batches contents self c2 post) as [[t' e'] c'].
    split; reflexivity.
  - reflexivity.
Qed.

End LoaderResponses.

Lemma malformed_response_policy_witness :
  lazy_load Sample.contents
    (scripted_loader false (Return (VObj [("results", VList [])])))
  = (first_events ++ [Request (firstn 10 (skipn 10 Sample.urls25)) Max Auto],
     Raised (AttributeError "success"),
     [last_answer]).
Proof.
  apply (proj2 (malformed_response_policy Sample.client Sample.contents
                  (scripted_loader false (Return (VObj [("results", VList [])])))
                  [firstn 10 Sample.urls25] [skipn 20 Sample.urls25]
                  (firstn 10 (skipn 10 Sample.urls25))
                  first_events
                  [Return (VObj [("results", VList [])]); last_answer] [last_answer]
                  (VObj [("results", VList [])])
                  eq_refl eq_refl eq_refl
                  (AttributeError "success")
                  (or_introl (conj eq_refl eq_refl)))).
  reflexivity.
Defined.

Lemma empty_results_skipped_witness :
  events_of (lazy_load Sample.contents
               (scripted_loader false (Return (Sample.ok_response []))))
  = first_events
      ++ [Request (firstn 10 (skipn 10 Sample.urls25)) Max Auto;
          Logged (LogWarning (MsgNoResults (firstn 10 (skipn 10 Sample.urls25))))]
      ++ [Request (skipn 20 Sample.urls25) Max Auto;
          Yield (mkDocument "last" [("source", VStr "https://example.org/21")])].
Proof.
  destruct (empty_results_skipped Sample.client Sample.contents
              (scripted_loader false (Return (Sample.ok_response [])))
              [firstn 10 Sample.urls25] [skipn 20 Sample.urls25]
              (firstn 10 (skipn 10 Sample.urls25))
              first_events
              [Return (Sample.ok_response []); last_answer] [last_answer]
              (Sample.ok_response [])
              eq_refl eq_refl eq_refl (VBool true) eq_refl eq_refl eq_refl)
    as [Hevents _].
  rewrite Hevents. reflexivity.
Defined.

Lemma batch_documents_in_order_witness :
  events_of (lazy_load Sample.contents
               (scripted_loader false (Return (Sample.ok_response mixed_results))))
  = first_events
      ++ [Request (firstn 10 (skipn 10 Sample.urls25)) Max Auto;
          Yield (mkDocument "x" [("source", VStr "https://example.org/a")]);
          Logged (LogWarning (MsgNoContent (VStr "https://example.org/b")));
          Yield (mkDocument "x" [("source", VStr "https://example.org/a");
                                 ("lang", VStr "en"); ("words", VInt 120)])]
      ++ [Request (skipn 20 Sample.urls25) Max Auto;
          Yield (mkDocument "last" [("source", VStr "https://example.org/21")])].
Proof.
  destruct (batch_documents_in_order Sample.client Sample.contents
              (scripted_loader false (Return (Sample.ok_response mixed_results)))
              [firstn 10 Sample.urls25] [skipn 20 Sample.urls25]
              (firstn 10 (skipn 10 Sample.urls25))
              first_events
              [Return (Sample.ok_response mixed_results); last_answer]
              [last_answer]
              (Sample.ok_response mixed_results)
              eq_refl eq_refl eq_refl (VBool true) eq_refl eq_refl
              (VList mixed_results) eq_refl eq_refl
              mixed_results eq_refl)
    as (Hevents & _ & _).
  - repeat constructor.
  - rewrite Hevents. reflexivity.
Defined.

Lemma invalid_content_ends_batch_witness :
  events_of (lazy_load Sample.contents
               (scripted_loader true (Return (Sample.ok_response results_with_number))))
  = first_events
      ++ [Request (firstn 10 (skipn 10 Sample.urls25)) Max Auto;
          Yield (mkDocument "x" [("source", VStr "https://example.org/a")]);
          Logged (LogError (MsgBatchError (firstn 10 (skipn 10 Sample.urls25))
                                          (ValidationError "Document")))]
      ++ [Request (skipn 20 Sample.urls25) Max Auto;
          Yield (mkDocument "last" [("source", VStr "https://example.org/21")])].
Proof.
  destruct (invalid_content_ends_batch Sample.client Sample.contents
              (scripted_loader true (Return (Sample.ok_response results_with_number)))
              [firstn 10 Sample.urls25] [skipn 20 Sample.urls25]
              (firstn 10 (skipn 10 Sample.urls25))
              first_events
              [Return (Sample.ok_response results_with_number); last_answer]
              [last_answer]
              (Sample.ok_response results_with_number)
              eq_refl eq_refl eq_refl (VBool true) eq_refl eq_refl
              (VList results_with_number) eq_refl eq_refl
              [plain_result] number_content_result [result_with_metadata]
              eq_refl)
    as [Hcont _].
  - repeat constructor.
  - reflexivity.
  - destruct (Hcont eq_refl) as [Hevents _]. rewrite Hevents. reflexivity.
Defined.

(** ** One result of a response *)

Section LoaderResult.

Variable client : Type.
Variable contents :
  client -> list string -> response_length -> extract_effort -> res value * client.
Variable self : ValyuLoader client.
Variables pre post : list (list string).
Variable b : list string.
Variable t_pre : list event.
Variables c1 c2 : client.
Variables response success results : value.
Variables before after : list value.
Variable result : value.

(** The rounds before the batch went through, the call for the batch
    returned a successful response, and [result] is one of its results, the
    others having contents that are falsy or strings. *)
Hypothesis Hbatches : batches (urls self) = pre ++ b :: post.
Hypothesis Hpre :
  load_batches contents self (self_client self) pre = (t_pre, StopIteration, c1).
Hypothesis Hcall :
  contents c1 b (self_response_length self) (self_extract_effort self)
    = (Return response, c2).
Hypothesis Hsuccess : attr_lookup response "success" = Some success.
Hypothesis Htruthy : truthy success = true.
Hypothesis Hresults : attr_lookup response "results" = Some results.
Hypothesis Hiter : py_iter results = Return (before ++ result :: after).
Hypothesis Hothers : Forall (fun r => content_ok r = true) (before ++ after).

Local Abbreviation request :=
  (Request b (self_response_length self) (self_extract_effort self)).
Local Abbreviation url := (getattr result "url" (VStr "")).

(** The run, around what the result gives. *)
Lemma result_position :
  content_ok result = true ->
  events_of (lazy_load contents self)
  = t_pre ++ (request :: flat_map result_events before
                ++ result_events result ++ flat_map result_events after)
          ++ events_of (load_batches contents self c2 post).
Proof.
  intros Hresult.
  assert (Hnonempty : truthy results = true).
  { destruct before; cbn [app] in Hiter; exact (py_iter_truthy _ _ _ Hiter). }
  assert (Hok : Forall (fun r => content_ok r = true) (before ++ result :: after)).
  { apply Forall_app in Hothers. destruct Hothers as [Hb Ha].
    apply Forall_app. split; [exact Hb | constructor; assumption]. }
  destruct (batch_events_ok client contents self pre post b t_pre c1 c2 response
              Hbatches Hpre Hcall success Hsuccess Htruthy results Hresults
              Hnonempty _ Hiter Hok) as [Hev _].
  rewrite Hev, flat_map_app. reflexivity.
Qed.

(** X9. Metadata of a result that is not a dict (a string, a list, a number,
    an object) is ignored: the result gives exactly one document, with its
    content and the metadata {"source": url}. *)
Theorem non_dict_metadata_ignored :
  forall s m,
    getattr result "content" (VStr "") = VStr s ->
    s <> "" ->
    attr_lookup result "metadata" = Some m ->
    isinstance_dict m = false ->
    events_of (lazy_load contents self)
    = t_pre ++ (request :: flat_map result_events before
                  ++ [Yield (mkDocument s [("source", url)])]
                  ++ flat_map result_events after)
            ++ events_of (load_batches contents self c2 post).
Proof.
  intros s m Hc Hs Hm Hnd.
  assert (Hev : load_result result
                = ([Yield (mkDocument s [("source", url)])], Return tt)).
  { unfold load_result. rewrite Hc, Hm.
    apply String.eqb_neq in Hs. cbn [truthy]. rewrite Hs. cbn [negb].
    destruct m; try discriminate;
      try (match goal with |- context [if ?t then _ else _] => destruct t end);
      reflexivity. }
  rewrite result_position.
  - unfold result_events at 2. rewrite Hev. reflexivity.
  - unfold content_ok. rewrite Hc. apply orb_true_r.
Qed.

(** X10. When the metadata of a result is a dict, the result gives exactly
    one document, whose metadata answers every lookup as that dict does,
    except for "source", which answers with the dict's own "source" if it
    has one and with the result's URL otherwise. *)
Theorem dict_metadata_merged :
  forall s pm,
    getattr result "content" (VStr "") = VStr s ->
    s <> "" ->
    attr_lookup result "metadata" = Some (VDict pm) ->
    NoDup (map fst pm) ->
    exists md,
      events_of (lazy_load contents self)
      = t_pre ++ (request :: flat_map result_events before
                    ++ [Yield (mkDocument s md)]
                    ++ flat_map result_events after)
              ++ events_of (load_batches contents self c2 post) /\
      forall k,
        dict_get k md =
        if String.eqb k "source"
        then Some (dict_get_default pm "source" url)
        else dict_get k pm.
Proof.
  intros s pm Hc Hs Hm Hnd.
  assert (Hev : exists md,
             load_result result = ([Yield (mkDocument s md)], Return tt) /\
             forall k,
               dict_get k md =
               if String.eqb k "source"
               then Some (dict_get_default pm "source" url)
               else dict_get k pm).
  { unfold load_result. rewrite Hc, Hm.
    apply String.eqb_neq in Hs. cbn [truthy]. rewrite Hs. cbn [negb new_Document].
    eexists. split; [reflexivity|]. intros k.
    destruct pm as [|kv pm'].
    - cbn. destruct (String.eqb k "source"); reflexivity.
    - rewrite dict_get_update, (dict_get_rev _ _ Hnd).
      change (dict_get k [("source", url)])
        with (if String.eqb k "source" then Some url else None).
      unfold dict_get_default.
      destruct (String.eqb k "source") eqn:E.
      + apply String.eqb_eq in E. subst k.
        destruct (dict_get "source" (kv :: pm')); reflexivity.
      + destruct (dict_get k (kv :: pm')); reflexivity. }
  destruct Hev as [md [Hload Hget]].
  exists md. split; [|exact Hget].
  rewrite result_position.
  - unfold result_events at 2. rewrite Hload. reflexivity.
  - unfold content_ok. rewrite Hc. apply orb_true_r.
Qed.

End LoaderResult.



Lemma non_dict_metadata_ignored_witness :
  events_of (lazy_load Sample.contents
               (scripted_loader false
                  (Return (Sample.ok_response
                             [plain_result; result_with_text_metadata]))))
  = first_events
      ++ [Request (firstn 10 (skipn 10 Sample.urls25)) Max Auto;
          Yield (mkDocument "x" [("source", VStr "https://example.org/a")]);
          Yield (mkDocument "x" [("source", VStr "https://example.org/a")])]
      ++ [Request (skipn 20 Sample.urls25) Max Auto;
          Yield (mkDocument "last" [("source", VStr "https://example.org/21")])].
Proof.
  assert (Hothers : Forall (fun r => content_ok r = true) ([plain_result] ++ []))
    by (repeat constructor).
  rewrite (non_dict_metadata_ignored Sample.client Sample.contents
             (scripted_loader false
                (Return (Sample.ok_response
                           [plain_result; result_with_text_metadata])))
             [firstn 10 Sample.urls25] [skipn 20 Sample.urls25]
             (firstn 10 (skipn 10 Sample.urls25))
             first_events
             [Return (Sample.ok_response [plain_result; result_with_text_metadata]);
              last_answer]
             [last_answer]
             (Sample.ok_response [plain_result; result_with_text_metadata])
             (VBool true)
             (VList [plain_result; result_with_text_metadata])
             [plain_result] [] result_with_text_metadata
             eq_refl eq_refl eq_refl eq_refl eq_refl eq_refl eq_refl
             Hothers
             "x" (VStr "lang=en") eq_refl);
    [reflexivity | discriminate | reflexivity | reflexivity].
Defined.

Lemma dict_metadata_merged_witness :
  exists md,
    events_of (lazy_load Sample.contents
                 (scripted_loader false
                    (Return (Sample.ok_response [result_with_metadata]))))
    = first_events
        ++ [Request (firstn 10 (skipn 10 Sample.urls25)) Max Auto;
            Yield (mkDocument "x" md)]
        ++ [Request (skipn 20 Sample.urls25) Max Auto;
            Yield (mkDocument "last" [("source", VStr "https://example.org/21")])] /\
    dict_get "source" md = Some (VStr "https://example.org/a") /\
    dict_get "lang" md = Some (VStr "en") /\
    dict_get "words" md = Some (VInt 120) /\
    dict_get "title" md = None.
Proof.
  destruct (dict_metadata_merged Sample.client Sample.contents
              (scripted_loader false
                 (Return (Sample.ok_response [result_with_metadata])))
              [firstn 10 Sample.urls25] [skipn 20 Sample.urls25]
              (firstn 10 (skipn 10 Sample.urls25))
              first_events
              [Return (Sample.ok_response [result_with_metadata]); last_answer]
              [last_answer]
              (Sample.ok_response [result_with_metadata]) (VBool true)
              (VList [result_with_metadata])
              [] [] result_with_metadata
              eq_refl eq_refl eq_refl eq_refl eq_refl eq_refl eq_refl
              (Forall_nil _)
              "x" [("lang", VStr "en"); ("words", VInt 120)] eq_refl)
    as [md [Hev Hget]].
  - discriminate.
  - reflexivity.
  - repeat constructor; cbn; intuition discriminate.
  - exists md. split; [rewrite Hev; reflexivity|].
    repeat split; rewrite Hget; reflexivity.
Defined.

(** * The search adapter *)

Section SearchRuns.

Variable client : Type.
Variable import_valyu : res unit.
Variable Valyu : string -> res client.
Variable client_search : client -> string -> Z -> res value.
Variable json_dumps : value -> res string.
Variable str : value -> string.
Variable get_filtered_results : list dict -> list string -> res (list dict).

Lemma convert_content_value : forall data_type content,
  snd (convert_content json_dumps str data_type content)
    = Return (converted json_dumps str data_type content).
Proof.
  intros data_type content. unfold convert_content, converted.
  destruct (eq_str data_type "structured" && truthy content); [|reflexivity].
  destruct (isinstance_dict content || isinstance_list content).
  - destruct (json_dumps content); reflexivity.
  - destruct (negb (isinstance_str content)); reflexivity.
Qed.

(** The only records a round of the loop logs are JSON warnings. *)
Lemma extract_result_logs : forall result r,
  In r (fst (extract_result json_dumps str result)) ->
  exists e, r = LogWarning (MsgJsonFailed e).
Proof.
  intros result r. unfold extract_result, convert_content.
  destruct (eq_str _ "structured" && truthy _).
  - destruct (isinstance_dict _ || isinstance_list _).
    + destruct (json_dumps _) as [s|e]; cbn [lift bind try_except log ret app];
        destruct (truthy (getattr result "url" (VStr ""))); cbn [fst app].
      * intros [].
      * intros [].
      * intros [<-|[]]. eexists; reflexivity.
      * intros [<-|[]]. eexists; reflexivity.
    + destruct (negb (isinstance_str _)); cbn [ret bind];
        destruct (truthy (getattr result "url" (VStr ""))); intros [].
  - cbn [ret bind]. destruct (truthy (getattr result "url" (VStr ""))); intros [].
Qed.

Lemma to_search_result_entry : forall url title content data_type,
  to_search_result [("url", url); ("title", title); ("content", content);
                    ("data_type", data_type)]
  = new_SearchResult url title content.
Proof. reflexivity. Qed.

(** What a round appends to the results, and what [SearchResult] makes of
    it. *)
Lemma extract_result_value : forall result,
  exists ds,
    snd (extract_result json_dumps str result) = Return ds /\
    List.length ds
      = List.length (filter truthy [getattr result "url" (VStr "")]) /\
    (valid_result json_dumps str result = true ->
     to_search_results ds = Return (normalized json_dumps str result)) /\
    (valid_result json_dumps str result = false ->
     to_search_results ds = Raise (ValidationError "SearchResult")).
Proof.
  intros result.
  unfold extract_result, normalized, valid_result, result_fields.
  fold (content_value result).
  pose proof (convert_content_value
                (getattr result "data_type" (VStr "unstructured"))
                (content_value result)) as Hc.
  destruct (convert_content json_dumps str _ _) as [l r]. cbn [snd] in Hc.
  subst r. cbn [bind filter].
  destruct (truthy (getattr result "url" (VStr ""))); cbn [negb orb ret app snd].
  - eexists. split; [reflexivity|]. split; [reflexivity|].
    cbn [to_search_results]. rewrite to_search_result_entry.
    unfold new_SearchResult.
    destruct (getattr result "url" (VStr ""));
      try (split; [discriminate | reflexivity]).
    destruct (optional_str (getattr result "title" (VStr "")));
      [|split; [discriminate | reflexivity]].
    destruct (optional_str (converted json_dumps str _ _));
      split; try discriminate; reflexivity.
  - eexists. split; [reflexivity|]. split; [reflexivity|].
    split; [reflexivity | discriminate].
Qed.

Lemma to_search_results_app : forall ds1 ds2 rs1 rs2,
  to_search_results ds1 = Return rs1 ->
  to_search_results ds2 = Return rs2 ->
  to_search_results (ds1 ++ ds2) = Return (rs1 ++ rs2).
Proof.
  induction ds1 as [|d ds1 IH]; intros ds2 rs1 rs2 H1 H2.
  - cbn in H1. injection H1 as <-. exact H2.
  - cbn [app to_search_results] in *.
    destruct (to_search_result d) as [x|e]; [|discriminate].
    destruct (to_search_results ds1) as [xs|e]; [|discriminate].
    injection H1 as <-. rewrite (IH ds2 xs rs2 eq_refl H2). reflexivity.
Qed.

Lemma to_search_results_app_raise_l : forall ds1 ds2,
  to_search_results ds1 = Raise (ValidationError "SearchResult") ->
  (to_search_results ds2 = Raise (ValidationError "SearchResult") \/
   exists rs, to_search_results ds2 = Return rs) ->
  to_search_results (ds1 ++ ds2) = Raise (ValidationError "SearchResult").
Proof.
  induction ds1 as [|d ds1 IH]; intros ds2 H1 H2; [discriminate|].
  cbn [app to_search_results] in *.
  destruct (to_search_result d) as [x|e]; [|exact H1].
  destruct (to_search_results ds1) as [xs|e] eqn:E; [discriminate|].
  injection H1 as ->. rewrite (IH ds2 eq_refl H2). reflexivity.
Qed.

Lemma to_search_results_app_raise_r : forall ds1 ds2 rs1,
  to_search_results ds1 = Return rs1 ->
  to_search_results ds2 = Raise (ValidationError "SearchResult") ->
  to_search_results (ds1 ++ ds2) = Raise (ValidationError "SearchResult").
Proof.
  induction ds1 as [|d ds1 IH]; intros ds2 rs1 H1 H2; [exact H2|].
  cbn [app to_search_results] in *.
  destruct (to_search_result d) as [x|e]; [|discriminate].
  destruct (to_search_results ds1) as [xs|e]; [|discriminate].
  rewrite (IH ds2 xs eq_refl H2). reflexivity.
Qed.

(** The loop over the raw results. *)
Lemma for_each_extract_result : forall items,
  exists ds,
    for_each (extract_result json_dumps str) items
      = (flat_map (fun r => fst (extract_result json_dumps str r)) items, Return ds) /\
    List.length ds
      = List.length (filter truthy (map (fun r => getattr r "url" (VStr "")) items)) /\
    (Forall (fun r => valid_result json_dumps str r = true) items ->
     to_search_results ds = Return (flat_map (normalized json_dumps str) items)) /\
    (Exists (fun r => valid_result json_dumps str r = false) items ->
     to_search_results ds = Raise (ValidationError "SearchResult")).
Proof.
  induction items as [|r items IH].
  - exists []. repeat split. intros H. inversion H.
  - destruct IH as (ds & Hfor & Hlen & Hvalid & Hinvalid).
    destruct (extract_result_value r) as (d & Hd & Hdlen & Hdvalid & Hdinvalid).
    cbn [for_each flat_map map]. rewrite Hfor.
    destruct (extract_result json_dumps str r) as [l out]. cbn [snd fst] in *.
    subst out. cbn [bind ret]. rewrite app_nil_r.
    exists (d ++ ds). split; [reflexivity|]. split; [|split].
    + rewrite length_app, Hdlen, Hlen. cbn [filter].
      destruct (truthy (getattr r "url" (VStr ""))); reflexivity.
    + intros Hall. inversion Hall as [|? ? Hr Hitems]; subst.
      apply to_search_results_app; [apply Hdvalid, Hr | apply Hvalid, Hitems].
    + intros Hex.
      destruct (valid_result json_dumps str r) eqn:Hr.
      * inversion Hex as [? ? Hbad|? ? Hrest]; subst; [congruence|].
        eapply to_search_results_app_raise_r;
          [apply Hdvalid; reflexivity | apply Hinvalid, Hrest].
      * apply to_search_results_app_raise_l; [apply Hdinvalid; reflexivity|].
        destruct (Exists_dec (fun r => valid_result json_dumps str r = false) items)
          as [Hrest|Hnone].
        -- intros x. destruct (valid_result json_dumps str x);
             [right; discriminate | left; reflexivity].
        -- left. apply Hinvalid, Hrest.
        -- right. eexists. apply Hvalid.
           apply Forall_forall. intros x Hx.
           destruct (valid_result json_dumps str x) eqn:Ex; [reflexivity|].
           exfalso. apply Hnone. apply Exists_exists. exists x. split; assumption.
Qed.

Lemma to_search_results_length : forall ds rs,
  to_search_results ds = Return rs -> List.length ds = List.length rs.
Proof.
  induction ds as [|d ds IH]; intros rs H; cbn in H.
  - injection H as <-. reflexivity.
  - destruct (to_search_result d); [|discriminate].
    destruct (to_search_results ds) as [xs|e]; [|discriminate].
    injection H as <-. cbn. f_equal. apply IH. reflexivity.
Qed.

(** A falsy value that can be iterated has no items. *)
Lemma py_iter_falsy : forall v items,
  truthy v = false -> py_iter v = Return items -> items = [].
Proof.
  intros v items Hf Hi. destruct v; cbn in *; try discriminate.
  - destruct s; [injection Hi as <-; reflexivity | discriminate].
  - destruct items0; [injection Hi as <-; reflexivity | discriminate].
  - destruct items0; [injection Hi as <-; reflexivity | discriminate].
Qed.

Variables api_key query : string.
Variable count : Z.
Variable filter_list : option (list string).
Variable c : client.
Variables response success results : value.
Variable items : list value.

Hypothesis Himport : import_valyu = Return tt.
Hypothesis HValyu : Valyu api_key = Return c.
Hypothesis Hsearch : client_search c query (count_or_10 count) = Return response.
Hypothesis Hsuccess : getattr_strict response "success" = Return success.
Hypothesis Htruthy : truthy success = true.
Hypothesis Hresults : attr_lookup response "results" = Some results.
Hypothesis Hiter : py_iter results = Return items.
Hypothesis Hnofilter : filter_given filter_list = None.

Local Abbreviation run :=
  (search_valyu import_valyu Valyu client_search json_dumps str
     get_filtered_results api_key query count filter_list).

(** A successful search without a filter, up to the list comprehension. *)
Lemma search_valyu_to_results :
  exists ds,
    List.length ds
      = List.length (filter truthy (map (fun r => getattr r "url" (VStr "")) items)) /\
    (Forall (fun r => valid_result json_dumps str r = true) items ->
     to_search_results ds = Return (flat_map (normalized json_dumps str) items)) /\
    (Exists (fun r => valid_result json_dumps str r = false) items ->
     to_search_results ds = Raise (ValidationError "SearchResult")) /\
    run = match to_search_results ds with
          | Return rs =>
              (LogInfo (MsgSearching query)
                 :: flat_map (fun r => fst (extract_result json_dumps str r)) items
                 ++ [LogInfo (MsgFound (List.length ds))],
               Return rs)
          | Raise e =>
              (LogInfo (MsgSearching query)
                 :: flat_map (fun r => fst (extract_result json_dumps str r)) items
                 ++ [LogInfo (MsgFound (List.length ds));
                     LogError (MsgSearchError e)],
               Return [])
          end.
Proof.
  destruct (for_each_extract_result items) as (ds & Hfor & Hlen & Hvalid & Hinvalid).
  exists ds. split; [exact Hlen|]. split; [exact Hvalid|]. split; [exact Hinvalid|].
  assert (Hex : extract_results json_dumps str response
                = (flat_map (fun r => fst (extract_result json_dumps str r)) items,
                   Return ds)).
  { unfold extract_results. rewrite Hresults.
    destruct (truthy results) eqn:Hres.
    - rewrite Hiter. cbn [lift bind]. rewrite Hfor. reflexivity.
    - pose proof (py_iter_falsy results items Hres Hiter) as E. subst items.
      cbn in Hfor. exact Hfor. }
  unfold search_valyu, search_body. rewrite Himport, HValyu.
  cbn [lift bind log].
  rewrite Hsearch. cbn [bind]. rewrite Hsuccess. cbn [bind]. rewrite Htruthy.
  cbn [negb]. rewrite Hex. cbn [bind].
  unfold apply_filter. rewrite Hnofilter. cbn [ret lift log bind].
  destruct (to_search_results ds);
    cbn [try_except log ret bind app]; rewrite ?app_nil_r, <- ?app_assoc;
    reflexivity.
Qed.

(** When [SearchResult] takes every result that has a url: the raw results,
    normalized, in the provider's order; and what is logged on the way. *)
Lemma search_valyu_unfiltered :
  Forall (fun r => valid_result json_dumps str r = true) items ->
  run
  = (LogInfo (MsgSearching query)
       :: flat_map (fun r => fst (extract_result json_dumps str r)) items
       ++ [LogInfo (MsgFound (List.length
                                (flat_map (normalized json_dumps str) items)))],
     Return (flat_map (normalized json_dumps str) items)).
Proof.
  intros Hall.
  destruct search_valyu_to_results as (ds & _ & Hvalid & _ & Hrun).
  rewrite Hrun, (Hvalid Hall).
  rewrite (to_search_results_length ds _ (Hvalid Hall)). reflexivity.
Qed.

(** When [SearchResult] refuses one of them: nothing is returned, and the
    error is logged after the count. *)
Lemma search_valyu_invalid :
  Exists (fun r => valid_result json_dumps str r = false) items ->
  run
  = (LogInfo (MsgSearching query)
       :: flat_map (fun r => fst (extract_result json_dumps str r)) items
       ++ [LogInfo (MsgFound
                      (List.length
                         (filter truthy
                            (map (fun r => getattr r "url" (VStr "")) items))));
           LogError (MsgSearchError (ValidationError "SearchResult"))],
     Return []).
Proof.
  intros Hex.
  destruct search_valyu_to_results as (ds & Hlen & _ & Hinvalid & Hrun).
  rewrite Hrun, (Hinvalid Hex), Hlen. reflexivity.
Qed.

End SearchRuns.

(** C3, as stated, fails: when loading the package raises something else
    than ImportError, the search raises it; that import is outside the
    [try] that catches everything. *)
Lemma broken_import_propagates :
  search_valyu broken_import (Sample.Valyu [Return (Sample.ok_response raw_results)])
    Sample.client_search Json.dumps Sample.str Sample.get_filtered_results
    "key" "rocq" 5%Z None
  = ([], Raise (ProviderError "broken package")).
Proof. reflexivity. Qed.

(** C3, amended. When loading the package returns or raises ImportError,
    then whatever the SDK does (constructor or search call raising, any
    response at all) and whatever json.dumps, str, the domain filter and
    SearchResult do, search_valyu returns a list; that list is empty when the
    package is missing, when the constructor or the search call raises, and
    when anything raises inside the body.  An exception other than
    ImportError raised while loading the package comes out of the search. *)
Theorem search_valyu_never_raises :
  forall (client : Type) (import_valyu : res unit) (Valyu : string -> res client)
         (client_search : client -> string -> Z -> res value)
         (json_dumps : value -> res string) (str : value -> string)
         (get_filtered_results : list dict -> list string -> res (list dict))
         (api_key query : string) (count : Z) (filter_list : option (list string)),
    ((forall e, import_valyu = Raise e -> is_ImportError e = true) ->
     exists rs,
       snd (search_valyu import_valyu Valyu client_search json_dumps str
              get_filtered_results api_key query count filter_list) = Return rs) /\
    (forall msg,
        import_valyu = Raise (ImportError msg) ->
        search_valyu import_valyu Valyu client_search json_dumps str
          get_filtered_results api_key query count filter_list
        = ([LogError MsgPackageNotFound], Return [])) /\
    (forall e,
        import_valyu = Return tt ->
        Valyu api_key = Raise e ->
        search_valyu import_valyu Valyu client_search json_dumps str
          get_filtered_results api_key query count filter_list
        = ([LogInfo (MsgSearching query); LogError (MsgSearchError e)], Return [])) /\
    (forall c e,
        import_valyu = Return tt ->
        Valyu api_key = Return c ->
        client_search c query (count_or_10 count) = Raise e ->
        search_valyu import_valyu Valyu client_search json_dumps str
          get_filtered_results api_key query count filter_list
        = ([LogInfo (MsgSearching query); LogError (MsgSearchError e)], Return [])) /\
    (forall l e,
        import_valyu = Return tt ->
        search_body Valyu client_search json_dumps str get_filtered_results
          api_key query count filter_list = (l, Raise e) ->
        snd (search_valyu import_valyu Valyu client_search json_dumps str
               get_filtered_results api_key query count filter_list) = Return []) /\
    (forall e,
        import_valyu = Raise e ->
        is_ImportError e = false ->
        search_valyu import_valyu Valyu client_search json_dumps str
          get_filtered_results api_key query count filter_list
        = ([], Raise e)).
Proof.
  intros client import_valyu Valyu client_search json_dumps str
         get_filtered_results api_key query count filter_list.
  split; [|split; [|split; [|split; [|split]]]].
  - intros Himport. unfold search_valyu. destruct import_valyu as [[]|e].
    + destruct (search_body Valyu client_search json_dumps str
                  get_filtered_results api_key query count filter_list)
        as [l [rs|e]]; cbn; eexists; reflexivity.
    + rewrite (Himport e eq_refl). cbn. eexists; reflexivity.
  - intros msg ->. reflexivity.
  - intros e -> HValyu. unfold search_valyu, search_body. rewrite HValyu.
    reflexivity.
  - intros c e -> HValyu Hsearch. unfold search_valyu, search_body.
    rewrite HValyu. cbn [lift bind log]. rewrite Hsearch. reflexivity.
  - intros l e -> Hbody. unfold search_valyu. rewrite Hbody. reflexivity.
  - intros e -> He. unfold search_valyu. rewrite He. reflexivity.
Qed.

Lemma search_valyu_never_raises_witness :
  search_valyu (Return tt) Sample.Valyu_raising Sample.client_search Json.dumps
    Sample.str Sample.get_filtered_results "key" "rocq" 5%Z None
  = ([LogInfo (MsgSearching "rocq");
      LogError (MsgSearchError (ProviderError "invalid API key"))],
     Return []) /\
  search_valyu (Return tt) (Sample.Valyu [Raise (ProviderError "timeout")])
    Sample.client_search Json.dumps Sample.str Sample.get_filtered_results
    "key" "rocq" 5%Z None
  = ([LogInfo (MsgSearching "rocq");
      LogError (MsgSearchError (ProviderError "timeout"))],
     Return []) /\
  search_valyu (Raise (ImportError "No module named valyu"))
    (Sample.Valyu [Raise (ProviderError "timeout")])
    Sample.client_search Json.dumps Sample.str Sample.get_filtered_results
    "key" "rocq" 5%Z None
  = ([LogError MsgPackageNotFound], Return []).
Proof.
  split; [|split].
  - apply (proj1 (proj2 (proj2
             (search_valyu_never_raises Sample.client (Return tt)
                Sample.Valyu_raising
                Sample.client_search Json.dumps Sample.str
                Sample.get_filtered_results "key" "rocq" 5%Z None))));
      reflexivity.
  - apply (proj1 (proj2 (proj2 (proj2
             (search_valyu_never_raises Sample.client (Return tt)
                (Sample.Valyu [Raise (ProviderError "timeout")])
                Sample.client_search Json.dumps Sample.str
                Sample.get_filtered_results "key" "rocq" 5%Z None))))
             [Raise (ProviderError "timeout")]);
      reflexivity.
  - apply (proj1 (proj2
             (search_valyu_never_raises Sample.client
                (Raise (ImportError "No module named valyu"))
                (Sample.Valyu [Raise (ProviderError "timeout")])
                Sample.client_search Json.dumps Sample.str
                Sample.get_filtered_results "key" "rocq" 5%Z None))
             "No module named valyu").
    reflexivity.
Defined.

(** ** What a response leads to *)

Lemma to_search_results_entries : forall kept rs,
  map entry_result kept = map Some rs ->
  to_search_results kept = Return rs.
Proof.
  induction kept as [|d kept IH]; intros rs H.
  - destruct rs; [reflexivity | discriminate].
  - destruct rs as [|x rs]; [discriminate|]. cbn [map] in H.
    injection H as Hd Hkept. cbn [to_search_results].
    rewrite (IH rs Hkept).
    unfold entry_result in Hd. unfold to_search_result, dict_getitem.
    destruct (dict_get "url" d); [|discriminate].
    destruct (new_SearchResult _ _ _); [|discriminate].
    injection Hd as ->. reflexivity.
Qed.

Lemma to_search_results_refused : forall kept,
  In None (map entry_result kept) ->
  exists e, to_search_results kept = Raise e.
Proof.
  induction kept as [|d kept IH]; intros H; [destruct H|].
  cbn [map] in H. cbn [to_search_results].
  unfold entry_result in H. unfold to_search_result, dict_getitem.
  destruct (dict_get "url" d); [|eexists; reflexivity].
  destruct (new_SearchResult _ _ _) as [x|e]; [|eexists; reflexivity].
  destruct H as [H|H]; [discriminate|].
  destruct (IH H) as [e He]. rewrite He. eexists; reflexivity.
Qed.

Section SearchResponses.

Variable client : Type.
Variable Valyu : string -> res client.
Variable client_search : client -> string -> Z -> res value.
Variable json_dumps : value -> res string.
Variable str : value -> string.
Variable get_filtered_results : list dict -> list string -> res (list dict).
Variables api_key query : string.
Variable count : Z.
Variable filter_list : option (list string).
Variable c : client.
Variable response : value.

Hypothesis HValyu : Valyu api_key = Return c.
Hypothesis Hsearch : client_search c query (count_or_10 count) = Return response.

Local Abbreviation run :=
  (search_valyu (Return tt) Valyu client_search json_dumps str
     get_filtered_results api_key query count filter_list).

(** X11. A response whose success is falsy gives the empty list and one
    error record carrying the response's error (or "Unknown error"),
    whatever results the response has and whatever filter was asked for. *)
Theorem unsuccessful_search_response :
  forall success,
    attr_lookup response "success" = Some success ->
    truthy success = false ->
    run = ([LogInfo (MsgSearching query);
            LogError (MsgSearchFailed (getattr response "error" (VStr "Unknown error")))],
           Return []).
Proof.
  intros success Hs Hf. unfold search_valyu, search_body, getattr_strict.
  rewrite HValyu. cbn [lift bind log]. rewrite Hsearch. cbn [bind].
  rewrite Hs. cbn [bind]. rewrite Hf. reflexivity.
Qed.

(** X12. A response the search cannot read, because it has no success
    attribute or because its results are truthy but cannot be iterated, gives
    the empty list; the AttributeError or TypeError is logged as an error. *)
Theorem malformed_search_response :
  forall e,
    (attr_lookup response "success" = None /\ e = AttributeError "success") \/
    (exists success results,
        attr_lookup response "success" = Some success /\
        truthy success = true /\
        attr_lookup response "results" = Some results /\
        truthy results = true /\
        py_iter results = Raise e) ->
    run = ([LogInfo (MsgSearching query); LogError (MsgSearchError e)], Return []).
Proof.
  intros e Hbad. unfold search_valyu, search_body, getattr_strict.
  rewrite HValyu. cbn [lift bind log]. rewrite Hsearch. cbn [bind].
  destruct Hbad as [[Hnone ->] | (success & results & Hs & Ht & Hr & Htr & Hiter)].
  - rewrite Hnone. reflexivity.
  - rewrite Hs. cbn [bind]. rewrite Ht. cbn [negb].
    unfold extract_results. rewrite Hr, Htr, Hiter. reflexivity.
Qed.

Variable success : value.
Hypothesis Hsuccess : attr_lookup response "success" = Some success.
Hypothesis Htruthy : truthy success = true.

(** X13. When a filter is given and some result has a url, the search
    returns what the host's filter returns for the whole list of results:
    one search result per entry, in the filter's order, when every entry has
    a url and fields that [SearchResult] takes, a missing title or content
    read as the empty string; the empty list when the filter keeps nothing,
    when it raises, or when an entry it returns has no url or a field that
    [SearchResult] refuses. *)
Theorem filter_decides :
  forall logs ds d0 ds0 fl,
    extract_results json_dumps str response = (logs, Return ds) ->
    ds = d0 :: ds0 ->
    filter_given filter_list = Some fl ->
    (forall kept,
        get_filtered_results ds fl = Return kept ->
        (forall rs, map entry_result kept = map Some rs -> snd run = Return rs) /\
        (In None (map entry_result kept) -> snd run = Return [])) /\
    (forall e, get_filtered_results ds fl = Raise e -> snd run = Return []).
Proof.
  intros logs ds d0 ds0 fl Hex -> Hfl.
  assert (Hrun : snd run =
                 match get_filtered_results (d0 :: ds0) fl with
                 | Return kept =>
                     match to_search_results kept with
                     | Return rs => Return rs
                     | Raise _ => Return []
                     end
                 | Raise _ => Return []
                 end).
  { unfold search_valyu, search_body, getattr_strict.
    rewrite HValyu. cbn [lift bind log]. rewrite Hsearch. cbn [bind].
    rewrite Hsuccess. cbn [bind]. rewrite Htruthy. cbn [negb].
    rewrite Hex. cbn [bind]. unfold apply_filter. rewrite Hfl.
    cbn [lift bind].
    destruct (get_filtered_results (d0 :: ds0) fl) as [kept|e]; [|reflexivity].
    cbn [log bind lift].
    destruct (to_search_results kept); reflexivity. }
  split.
  - intros kept Hkept. rewrite Hkept in Hrun. split.
    + intros rs Hall. rewrite Hrun, (to_search_results_entries kept rs Hall).
      reflexivity.
    + intros Hmiss. destruct (to_search_results_refused kept Hmiss) as [e He].
      rewrite Hrun, He. reflexivity.
  - intros e He. rewrite He in Hrun. exact Hrun.
Qed.

End SearchResponses.

(** X17. Whenever the search returns results, with or without a filter and
    whatever the SDK and the filter did, it has logged their number. *)
Theorem found_count_logged :
  forall (client : Type) (import_valyu : res unit) (Valyu : string -> res client)
         (client_search : client -> string -> Z -> res value)
         (json_dumps : value -> res string) (str : value -> string)
         (get_filtered_results : list dict -> list string -> res (list dict))
         (api_key query : string) (count : Z) (filter_list : option (list string))
         (rs : list SearchResult),
    snd (search_valyu import_valyu Valyu client_search json_dumps str
           get_filtered_results api_key query count filter_list) = Return rs ->
    rs <> [] ->
    In (LogInfo (MsgFound (List.length rs)))
       (fst (search_valyu import_valyu Valyu client_search json_dumps str
               get_filtered_results api_key query count filter_list)).
Proof.
  intros client import_valyu Valyu client_search json_dumps str
         get_filtered_results api_key query count filter_list rs.
  unfold search_valyu, search_body.
  destruct import_valyu as [[]|e0];
    [|destruct (is_ImportError e0); cbn;
      [intros [= <-] H; contradiction | discriminate]].
  destruct (Valyu api_key) as [c|e]; cbn [lift bind log];
    [|cbn; intros [= <-] H; contradiction].
  destruct (client_search c query (count_or_10 count)) as [response|e];
    cbn [bind]; [|cbn; intros [= <-] H; contradiction].
  destruct (getattr_strict response "success") as [success|e];
    cbn [bind]; [|cbn; intros [= <-] H; contradiction].
  destruct (negb (truthy success));
    [cbn; intros [= <-] H; contradiction|].
  destruct (extract_results json_dumps str response) as [l1 [ds|e]];
    cbn [bind]; [|cbn; intros [= <-] H; contradiction].
  destruct (apply_filter get_filtered_results filter_list ds) as [l2 [kept|e]];
    cbn [bind log lift]; [|cbn; intros [= <-] H; contradiction].
  destruct (to_search_results kept) as [xs|e] eqn:Hkept;
    cbn [try_except fst snd app]; [|cbn; intros [= <-] H; contradiction].
  intros [= <-] _. rewrite <- (to_search_results_length kept xs Hkept).
  right. apply in_or_app. right. apply in_or_app. right. left. reflexivity.
Qed.

(** ** What a raw result leads to *)

Lemma py_or_truthy : forall a b, truthy a = true -> py_or a b = a.
Proof. intros a b H. unfold py_or. rewrite H. reflexivity. Qed.

Lemma py_or_falsy : forall a b, truthy a = false -> py_or a b = b.
Proof. intros a b H. unfold py_or. rewrite H. reflexivity. Qed.

Lemma normalized_links :
  forall (json_dumps : value -> res string) (str : value -> string) items,
    Forall (fun r => valid_result json_dumps str r = true) items ->
    map VStr (map link (flat_map (normalized json_dumps str) items))
    = filter truthy (map (fun r => getattr r "url" (VStr "")) items).
Proof.
  intros json_dumps str items; induction items as [|r items IH]; intros Hall;
    [reflexivity|].
  inversion Hall as [|? ? Hr Hitems]; subst.
  cbn [flat_map map filter]. rewrite !map_app, (IH Hitems).
  unfold normalized at 1. unfold valid_result in Hr.
  destruct (result_fields json_dumps str r) as [[url0 title0] snippet0] eqn:Hf.
  unfold result_fields in Hf. injection Hf as <- _ _.
  destruct (truthy (getattr r "url" (VStr ""))); [|reflexivity].
  cbn [negb orb] in Hr. unfold new_SearchResult in *.
  destruct (getattr r "url" (VStr "")); try discriminate.
  destruct (optional_str title0); [|discriminate].
  destruct (optional_str snippet0); [|discriminate].
  reflexivity.
Qed.

Section SearchResults.

Variable client : Type.
Variable import_valyu : res unit.
Variable Valyu : string -> res client.
Variable client_search : client -> string -> Z -> res value.
Variable json_dumps : value -> res string.
Variable str : value -> string.
Variable get_filtered_results : list dict -> list string -> res (list dict).
Variables api_key query : string.
Variable count : Z.
Variable filter_list : option (list string).
Variable c : client.
Variables response success results : value.
Variable items : list value.

(** A search that goes through: the package is there, the call returns a
    response with a truthy [success] and results that can be iterated, and
    no filter is given. *)
Hypothesis Himport : import_valyu = Return tt.
Hypothesis HValyu : Valyu api_key = Return c.
Hypothesis Hsearch : client_search c query (count_or_10 count) = Return response.
Hypothesis Hsuccess : getattr_strict response "success" = Return success.
Hypothesis Htruthy : truthy success = true.
Hypothesis Hresults : attr_lookup response "results" = Some results.
Hypothesis Hiter : py_iter results = Return items.
Hypothesis Hnofilter : filter_given filter_list = None.

Local Abbreviation run :=
  (search_valyu import_valyu Valyu client_search json_dumps str
     get_filtered_results api_key query count filter_list).
Local Abbreviation all_valid :=
  (Forall (fun r => valid_result json_dumps str r = true) items).

(** X14. Without a filter, a search that goes through returns, when
    [SearchResult] takes every raw result that has a url, one result per such
    raw result, in the provider's order, and drops the others (no url, an
    empty one, None) without a log record; it does not cut the list down to
    count; the last log record states the number returned and, apart from the
    first record, only JSON warnings come before it.  When [SearchResult]
    refuses one of them, the search returns the empty list and logs the
    error after the count. *)
Theorem unfiltered_search_output :
  (all_valid ->
   exists rs,
     snd run = Return rs /\
     map VStr (map link rs)
       = filter truthy (map (fun r => getattr r "url" (VStr "")) items) /\
     List.length rs <= List.length items /\
     exists warnings,
       fst run = LogInfo (MsgSearching query) :: warnings
                   ++ [LogInfo (MsgFound (List.length rs))] /\
       Forall (fun r => exists e, r = LogWarning (MsgJsonFailed e)) warnings) /\
  (Exists (fun r => valid_result json_dumps str r = false) items ->
   snd run = Return [] /\
   exists warnings,
     fst run = LogInfo (MsgSearching query) :: warnings
                 ++ [LogInfo (MsgFound
                                (List.length
                                   (filter truthy
                                      (map (fun r => getattr r "url" (VStr ""))
                                           items))));
                     LogError (MsgSearchError (ValidationError "SearchResult"))] /\
     Forall (fun r => exists e, r = LogWarning (MsgJsonFailed e)) warnings).
Proof.
  assert (Hwarn : Forall (fun r => exists e, r = LogWarning (MsgJsonFailed e))
                         (flat_map (fun r => fst (extract_result json_dumps str r))
                                   items)).
  { apply Forall_forall. intros r Hr. apply in_flat_map in Hr.
    destruct Hr as [raw [_ Hr]]. exact (extract_result_logs json_dumps str raw r Hr). }
  split.
  - intros Hall.
    pose proof (search_valyu_unfiltered client import_valyu Valyu client_search
                  json_dumps str get_filtered_results api_key query count
                  filter_list c response success results items
                  Himport HValyu Hsearch Hsuccess Htruthy Hresults Hiter Hnofilter
                  Hall) as Hrun.
    exists (flat_map (normalized json_dumps str) items).
    rewrite Hrun. cbn [fst snd].
    pose proof (normalized_links json_dumps str items Hall) as Hlinks.
    split; [reflexivity|]. split; [exact Hlinks|]. split.
    + rewrite <- (length_map link), <- (length_map VStr), Hlinks.
      rewrite <- (length_map (fun r => getattr r "url" (VStr "")) items).
      apply filter_length_le.
    + eexists. split; [reflexivity | exact Hwarn].
  - intros Hex.
    pose proof (search_valyu_invalid client import_valyu Valyu client_search
                  json_dumps str get_filtered_results api_key query count
                  filter_list c response success results items
                  Himport HValyu Hsearch Hsuccess Htruthy Hresults Hiter Hnofilter
                  Hex) as Hrun.
    rewrite Hrun. cbn [fst snd]. split; [reflexivity|].
    eexists. split; [reflexivity | exact Hwarn].
Qed.

(** One of the raw results, with a url that is a non-empty string and a
    title that is a string or None. *)
Variable result : value.
Variable u : string.
Variable t : option string.
Hypothesis Hin : In result items.
Hypothesis Hurl : getattr result "url" (VStr "") = VStr u.
Hypothesis Hu : u <> "".
Hypothesis Htitle : optional_str (getattr result "title" (VStr "")) = Some t.

Local Abbreviation data_type := (getattr result "data_type" (VStr "unstructured")).

Lemma search_valyu_keeps : forall s,
  all_valid ->
  optional_str (converted json_dumps str data_type (content_value result)) = Some s ->
  snd run = Return (flat_map (normalized json_dumps str) items) /\
  In (mkSearchResult u t s) (flat_map (normalized json_dumps str) items).
Proof.
  intros s Hall Hs. split.
  - rewrite (search_valyu_unfiltered client import_valyu Valyu client_search
               json_dumps str get_filtered_results api_key query count
               filter_list c response success results items); auto.
  - apply in_flat_map. exists result. split; [exact Hin|].
    unfold normalized, result_fields. rewrite Hurl.
    apply String.eqb_neq in Hu. cbn [truthy]. rewrite Hu. cbn [negb].
    unfold new_SearchResult. rewrite Htitle, Hs. left. reflexivity.
Qed.







(** X16. Where the snippet comes from, for a data_type other than
    "structured" and fields that are strings: the content field when it is
    not empty, or else the text field when that is not empty, or else the
    snippet field. *)
Theorem snippet_source_priority :
  all_valid ->
  eq_str data_type "structured" = false ->
  exists rs,
    snd run = Return rs /\
    (forall s,
        getattr result "content" (VStr "") = VStr s -> s <> "" ->
        In (mkSearchResult u t (Some s)) rs) /\
    (forall s,
        truthy (getattr result "content" (VStr "")) = false ->
        getattr result "text" (VStr "") = VStr s -> s <> "" ->
        In (mkSearchResult u t (Some s)) rs) /\
    (forall s,
        truthy (getattr result "content" (VStr "")) = false ->
        truthy (getattr result "text" (VStr "")) = false ->
        getattr result "snippet" (VStr "") = VStr s ->
        In (mkSearchResult u t (Some s)) rs).
Proof.
  intros Hall Hdt.
  exists (flat_map (normalized json_dumps str) items).
  split.
  { rewrite (search_valyu_unfiltered client import_valyu Valyu client_search
               json_dumps str get_filtered_results api_key query count
               filter_list c response success results items); auto. }
  assert (Hkeep : forall s, content_value result = VStr s ->
                            In (mkSearchResult u t (Some s))
                               (flat_map (normalized json_dumps str) items)).
  { intros s Hs. apply (search_valyu_keeps (Some s) Hall).
    unfold converted. rewrite Hdt, Hs. reflexivity. }
  assert (Hnonempty : forall s, s <> "" -> truthy (VStr s) = true).
  { intros s Hs. apply String.eqb_neq in Hs. cbn. rewrite Hs. reflexivity. }
  split; [|split].
  - intros s Hc Hs. apply Hkeep. unfold content_value.
    rewrite Hc, !(py_or_truthy _ _ (Hnonempty s Hs)). reflexivity.
  - intros s Hc Ht Hs. apply Hkeep. unfold content_value.
    rewrite (py_or_falsy _ _ Hc), Ht, (py_or_truthy _ _ (Hnonempty s Hs)).
    reflexivity.
  - intros s Hc Ht Hsn. apply Hkeep. unfold content_value.
    rewrite (py_or_falsy _ _ Hc), (py_or_falsy _ _ Ht). exact Hsn.
Qed.

End SearchResults.

(** ** The claims on the search, run on the samples *)







(** ** The further properties, run on the samples *)

Lemma unsuccessful_search_response_witness :
  search_valyu (Return tt) (Sample.Valyu [Return unsuccessful_search_answer])
    Sample.client_search Json.dumps Sample.str Sample.get_filtered_results
    "key" "rocq" 3%Z (Some ["example.org"])
  = ([LogInfo (MsgSearching "rocq"); LogError (MsgSearchFailed (VStr "quota"))],
     Return []).
Proof.
  apply (unsuccessful_search_response Sample.client
           (Sample.Valyu [Return unsuccessful_search_answer])
           Sample.client_search Json.dumps Sample.str Sample.get_filtered_results
           "key" "rocq" 3%Z (Some ["example.org"])
           [Return unsuccessful_search_answer] unsuccessful_search_answer
           eq_refl eq_refl (VBool false) eq_refl eq_refl).
Defined.

Lemma malformed_search_response_witness :
  sample_search_of (VInt 5) 3%Z None
  = ([LogInfo (MsgSearching "rocq");
      LogError (MsgSearchError (TypeError "object is not iterable"))],
     Return []).
Proof.
  unfold sample_search_of.
  apply (malformed_search_response Sample.client
           (Sample.Valyu [Return (VObj [("success", VBool true); ("results", VInt 5)])])
           Sample.client_search Json.dumps Sample.str Sample.get_filtered_results
           "key" "rocq" 3%Z None
           [Return (VObj [("success", VBool true); ("results", VInt 5)])]
           (VObj [("success", VBool true); ("results", VInt 5)])
           eq_refl eq_refl (TypeError "object is not iterable")).
  right. exists (VBool true), (VInt 5). repeat split.
Defined.


(** X18. The generator is driven batch by batch: what a run has produced by
    the end of any batch is what a run over the batches up to there
    produces, whatever URLs come later; and a run that raised in one of them
    is over. *)
Theorem earlier_batches_fixed :
  forall (client : Type)
         (contents : client -> list string -> response_length -> extract_effort
                     -> res value * client)
         (self : ValyuLoader client) (pre post : list (list string)),
    batches (urls self) = pre ++ post ->
    (exists later,
        events_of (lazy_load contents self)
        = events_of (load_batches contents self (self_client self) pre) ++ later) /\
    (forall e,
        ending_of (load_batches contents self (self_client self) pre) = Raised e ->
        lazy_load contents self
        = load_batches contents self (self_client self) pre).
Proof.
  intros client contents self pre post Hbs.
  unfold lazy_load. rewrite Hbs, load_batches_app.
  destruct (load_batches contents self (self_client self) pre) as [[t e] c].
  unfold events_of, ending_of. cbn [fst snd].
  destruct e as [|e].
  - destruct (load_batches contents self c post) as [[t' e'] c'].
    split; [exists t'; reflexivity | discriminate].
  - split; [exists []; symmetry; apply app_nil_r | reflexivity].
Qed.

Lemma earlier_batches_fixed_witness :
  lazy_load Sample.contents (scripted_loader false (Raise (ProviderError "timeout")))
  = load_batches Sample.contents
      (scripted_loader false (Raise (ProviderError "timeout")))
      [first_answer; Raise (ProviderError "timeout"); last_answer]
      [firstn 10 Sample.urls25; firstn 10 (skipn 10 Sample.urls25)].
Proof.
  apply (proj2 (earlier_batches_fixed Sample.client Sample.contents
                  (scripted_loader false (Raise (ProviderError "timeout")))
                  [firstn 10 Sample.urls25; firstn 10 (skipn 10 Sample.urls25)]
                  [skipn 20 Sample.urls25] eq_refl)
           (ProviderError "timeout")).
  reflexivity.
Defined.

Lemma filter_decides_witness :
  snd (sample_search_of (VList more_results) 3%Z (Some ["example.org"]))
    = Return [mkSearchResult "https://example.org/t" (Some "T") (Some "from text");
              mkSearchResult "https://example.org/q" (Some "Q") (Some "plain");
              mkSearchResult "https://example.org/s" (Some "S") (Some "5")] /\
  snd (sample_search_of (VList more_results) 3%Z (Some ["elsewhere.example"]))
    = Return [].
Proof.
  unfold sample_search_of. split.
  - destruct (filter_decides Sample.client
                (Sample.Valyu [Return more_response])
                Sample.client_search Json.dumps Sample.str
                Sample.get_filtered_results
                "key" "rocq" 3%Z (Some ["example.org"])
                [Return more_response] more_response
                eq_refl eq_refl (VBool true) eq_refl eq_refl
                [] more_extracted (hd [] more_extracted) (tl more_extracted)
                ["example.org"] eq_refl eq_refl eq_refl)
      as [Hkept _].
    destruct (Hkept more_extracted eq_refl) as [Hall _].
    apply Hall. reflexivity.
  - destruct (filter_decides Sample.client
                (Sample.Valyu [Return more_response])
                Sample.client_search Json.dumps Sample.str
                Sample.get_filtered_results
                "key" "rocq" 3%Z (Some ["elsewhere.example"])
                [Return more_response] more_response
                eq_refl eq_refl (VBool true) eq_refl eq_refl
                [] more_extracted (hd [] more_extracted) (tl more_extracted)
                ["elsewhere.example"] eq_refl eq_refl eq_refl)
      as [Hkept _].
    destruct (Hkept [] eq_refl) as [Hall _].
    apply Hall. reflexivity.
Defined.

Lemma unfiltered_search_output_witness :
  (exists rs,
      snd (sample_search_of (VList more_results) 3%Z None) = Return rs /\
      map VStr (map link rs)
        = [VStr "https://example.org/t"; VStr "https://example.org/q";
           VStr "https://example.org/s"]) /\
  snd (sample_search_of (VList [structured_number; unstructured_number]) 3%Z None)
    = Return [].
Proof.
  unfold sample_search_of. split.
  - destruct (proj1 (unfiltered_search_output Sample.client (Return tt)
                (Sample.Valyu [Return more_response])
                Sample.client_search Json.dumps Sample.str
                Sample.get_filtered_results "key" "rocq" 3%Z None
                [Return more_response] more_response (VBool true)
                (VList more_results) more_results
                eq_refl eq_refl eq_refl eq_refl eq_refl eq_refl eq_refl eq_refl))
      as [rs (Hrun & Hlinks & _)]; [repeat constructor|].
    exists rs. split; [exact Hrun | rewrite Hlinks; reflexivity].
  - apply (proj2 (unfiltered_search_output Sample.client (Return tt)
             (Sample.Valyu
                [Return (VObj [("success", VBool true);
                               ("results",
                                VList [structured_number; unstructured_number])])])
             Sample.client_search Json.dumps Sample.str
             Sample.get_filtered_results "key" "rocq" 3%Z None
             [Return (VObj [("success", VBool true);
                            ("results",
                             VList [structured_number; unstructured_number])])]
             (VObj [("success", VBool true);
                    ("results", VList [structured_number; unstructured_number])])
             (VBool true)
             (VList [structured_number; unstructured_number])
             [structured_number; unstructured_number]
             eq_refl eq_refl eq_refl eq_refl eq_refl eq_refl eq_refl eq_refl)).
    right. left. reflexivity.
Defined.


Lemma snippet_source_priority_witness :
  exists rs,
    snd (sample_search_of (VList more_results) 3%Z None) = Return rs /\
    In (mkSearchResult "https://example.org/t" (Some "T") (Some "from text")) rs.
Proof.
  unfold sample_search_of.
  destruct (snippet_source_priority Sample.client (Return tt)
              (Sample.Valyu [Return more_response])
              Sample.client_search Json.dumps Sample.str
              Sample.get_filtered_results "key" "rocq" 3%Z None
              [Return more_response] more_response (VBool true)
              (VList more_results) more_results
              eq_refl eq_refl eq_refl eq_refl eq_refl eq_refl eq_refl eq_refl
              text_only_result "https://example.org/t" (Some "T")
              (or_intror (or_introl eq_refl)) eq_refl)
    as [rs (Hrun & _ & Htext & _)];
    [discriminate | reflexivity | repeat constructor | reflexivity|].
  exists rs. split; [exact Hrun|].
  apply Htext; [reflexivity | reflexivity | discriminate].
Defined.

Lemma found_count_logged_witness :
  In (LogInfo (MsgFound 3)) (fst (sample_search_of (VList more_results) 3%Z None)).
Proof.
  apply (found_count_logged Sample.client (Return tt)
           (Sample.Valyu [Return more_response])
           Sample.client_search Json.dumps Sample.str
           Sample.get_filtered_results "key" "rocq" 3%Z None
           [mkSearchResult "https://example.org/t" (Some "T") (Some "from text");
            mkSearchResult "https://example.org/q" (Some "Q") (Some "plain");
            mkSearchResult "https://example.org/s" (Some "S") (Some "5")]).
  - reflexivity.
  - discriminate.
Defined.
